(** * DisplayAnalyzer: per-frame display analysis of the Intel hwcomposer

    A shallow embedding of [common/base/DisplayAnalyzer.cpp] and the
    properties of its extended-mode, trick-mode, blanking and event-queue
    logic.

    Conventions of the embedding:
    - the analyzer object is the record [DisplayAnalyzer]; every member
      function is a state transformer on it;
    - the array [hwc_display_contents_1_t **displays] is a list of optional
      display contents ([None] is the NULL pointer); the analyzer caches the
      array for the duration of [analyzeContents] and mutates the contents
      through it, so the cache field holds the contents themselves and
      [analyzeContents] hands the mutated array back to its caller;
    - [uint32_t] bit sets are non-negative [Z] values handled with [Z.land],
      [Z.lor] and [Z.lnot]; [int] arithmetic wraps at 32 bits;
    - the values of the HWC constants and the collaborators reached through
      [Hwcomposer::getInstance()] are declared in headers and classes outside
      [DisplayAnalyzer.cpp]; they are parameters of the development;
    - [callLog] is a ghost field: it records the entry into each member
      function and each call to an outside subsystem, in program order.  No
      code reads it. *)

From Stdlib Require Import ZArith Bool List Lia.
From stdpp Require Import base list.

Local Open Scope Z_scope.

(** ** Data of the hardware composer interface *)

Record hwc_rect_t := mkRect {
  left : Z;
  top : Z;
  right : Z;
  bottom : Z
}.

Record hwc_layer_1_t := mkLayer {
  compositionType : Z;
  hints : Z;
  flags : Z;
  handle : Z;
  transform : Z;
  sourceCrop : hwc_rect_t;
  displayFrame : hwc_rect_t
}.

(** [numHwLayers] is the length of [hwLayers]. *)
Record hwc_display_contents_1_t := mkContents {
  content_flags : Z;
  hwLayers : list hwc_layer_1_t
}.

(** [hdisplay] and [vdisplay] are [uint16_t]: promoted to [int], the
    subtraction [hdisplay - 1] does not wrap. *)
Record drmModeModeInfo := mkMode {
  hdisplay : Z;
  vdisplay : Z
}.

Inductive Event :=
| HOTPLUG_EVENT (connected : bool)
| BLANK_EVENT (blank : bool)
| VIDEO_EVENT (preparing playing : bool).

(** Entries of the ghost call log. *)
Inductive Call :=
| CallHandlePendingEvents
| CallHandleHotplugEvent (connected : bool)
| CallHandleBlankEvent (blank : bool)
| CallHandleVideoEvent (preparing playing : bool)
| CallBlankSecondaryDevice
| CallDetectVideoExtendedMode
| CallDetectTrickMode
| CallResetVsyncSource
| CallInvalidate.

Record DisplayAnalyzer := mkAnalyzer {
  mInitialized : bool;
  mEnableVideoExtendedMode : bool;
  mVideoExtendedMode : bool;
  mForceCloneMode : bool;
  mBlankDevice : bool;
  mVideoPlaying : bool;
  mVideoPreparing : bool;
  mOverlayAllowed : bool;
  mCachedDisplays : list (option hwc_display_contents_1_t);
  mPendingEvents : list Event;
  callLog : list Call
}.

(** [mCachedNumDisplays]: the cache is the array together with its size. *)
Definition mCachedNumDisplays (a : DisplayAnalyzer) : nat :=
  length (mCachedDisplays a).

(** The constants of [hwcomposer_defs.h]. *)
Class HwcDefs := {
  HWC_GEOMETRY_CHANGED : Z;
  HWC_TRICK_MODE : Z;
  HWC_SKIP_LAYER : Z;
  HWC_HINT_CLEAR_FB : Z;
  HWC_FRAMEBUFFER : Z;
  HWC_OVERLAY : Z
}.

(** The collaborators reached through the [Hwcomposer] singleton:
    [BufferManager::lockDataBuffer] followed by [DataBuffer::getFormat]
    ([None] when the lock fails), [DisplayQuery::isVideoFormat], and
    [Drm::getModeInfo] ([None] when it returns false), with the device
    number [IDisplayDevice::DEVICE_EXTERNAL] it is asked about. *)
Class Collaborators := {
  lockDataBuffer : Z -> option Z;
  isVideoFormat : Z -> bool;
  getModeInfo : nat -> option drmModeModeInfo;
  DEVICE_EXTERNAL : nat
}.

(** Modelled from the spec: [IDisplayDevice.h] is missing; the spec fixes
    slot 0 as the primary display, and the source reads the primary display
    both as [mCachedDisplays[0]] and as
    [mCachedDisplays[IDisplayDevice::DEVICE_PRIMARY]]. *)
Definition DEVICE_PRIMARY : nat := 0.

(** What [property_get] and [atoi] give for ["hwc.video.extmode.enable"]:
    the length [property_get] returns and the integer [atoi] reads from the
    buffer. *)
Record PropertyRead := mkProp {
  prop_len : Z;
  prop_atoi : Z
}.

(** ** Field updates *)

Definition set_compositionType (v : Z) (l : hwc_layer_1_t) : hwc_layer_1_t :=
  mkLayer v (hints l) (flags l) (handle l) (transform l) (sourceCrop l) (displayFrame l).

Definition set_hints (v : Z) (l : hwc_layer_1_t) : hwc_layer_1_t :=
  mkLayer (compositionType l) v (flags l) (handle l) (transform l) (sourceCrop l) (displayFrame l).

Definition set_flags (v : Z) (l : hwc_layer_1_t) : hwc_layer_1_t :=
  mkLayer (compositionType l) (hints l) v (handle l) (transform l) (sourceCrop l) (displayFrame l).

Definition set_content_flags (v : Z) (c : hwc_display_contents_1_t) : hwc_display_contents_1_t :=
  mkContents v (hwLayers c).

Definition set_hwLayers (ls : list hwc_layer_1_t) (c : hwc_display_contents_1_t) : hwc_display_contents_1_t :=
  mkContents (content_flags c) ls.

Definition set_mInitialized (v : bool) (a : DisplayAnalyzer) : DisplayAnalyzer :=
  mkAnalyzer v (mEnableVideoExtendedMode a) (mVideoExtendedMode a) (mForceCloneMode a)
    (mBlankDevice a) (mVideoPlaying a) (mVideoPreparing a) (mOverlayAllowed a)
    (mCachedDisplays a) (mPendingEvents a) (callLog a).

Definition set_mEnableVideoExtendedMode (v : bool) (a : DisplayAnalyzer) : DisplayAnalyzer :=
  mkAnalyzer (mInitialized a) v (mVideoExtendedMode a) (mForceCloneMode a)
    (mBlankDevice a) (mVideoPlaying a) (mVideoPreparing a) (mOverlayAllowed a)
    (mCachedDisplays a) (mPendingEvents a) (callLog a).

Definition set_mVideoExtendedMode (v : bool) (a : DisplayAnalyzer) : DisplayAnalyzer :=
  mkAnalyzer (mInitialized a) (mEnableVideoExtendedMode a) v (mForceCloneMode a)
    (mBlankDevice a) (mVideoPlaying a) (mVideoPreparing a) (mOverlayAllowed a)
    (mCachedDisplays a) (mPendingEvents a) (callLog a).

Definition set_mForceCloneMode (v : bool) (a : DisplayAnalyzer) : DisplayAnalyzer :=
  mkAnalyzer (mInitialized a) (mEnableVideoExtendedMode a) (mVideoExtendedMode a) v
    (mBlankDevice a) (mVideoPlaying a) (mVideoPreparing a) (mOverlayAllowed a)
    (mCachedDisplays a) (mPendingEvents a) (callLog a).

Definition set_mBlankDevice (v : bool) (a : DisplayAnalyzer) : DisplayAnalyzer :=
  mkAnalyzer (mInitialized a) (mEnableVideoExtendedMode a) (mVideoExtendedMode a)
    (mForceCloneMode a) v (mVideoPlaying a) (mVideoPreparing a) (mOverlayAllowed a)
    (mCachedDisplays a) (mPendingEvents a) (callLog a).

Definition set_mVideoPlaying (v : bool) (a : DisplayAnalyzer) : DisplayAnalyzer :=
  mkAnalyzer (mInitialized a) (mEnableVideoExtendedMode a) (mVideoExtendedMode a)
    (mForceCloneMode a) (mBlankDevice a) v (mVideoPreparing a) (mOverlayAllowed a)
    (mCachedDisplays a) (mPendingEvents a) (callLog a).

Definition set_mCachedDisplays (v : list (option hwc_display_contents_1_t))
    (a : DisplayAnalyzer) : DisplayAnalyzer :=
  mkAnalyzer (mInitialized a) (mEnableVideoExtendedMode a) (mVideoExtendedMode a)
    (mForceCloneMode a) (mBlankDevice a) (mVideoPlaying a) (mVideoPreparing a)
    (mOverlayAllowed a) v (mPendingEvents a) (callLog a).

Definition set_mPendingEvents (v : list Event) (a : DisplayAnalyzer) : DisplayAnalyzer :=
  mkAnalyzer (mInitialized a) (mEnableVideoExtendedMode a) (mVideoExtendedMode a)
    (mForceCloneMode a) (mBlankDevice a) (mVideoPlaying a) (mVideoPreparing a)
    (mOverlayAllowed a) (mCachedDisplays a) v (callLog a).

(** Ghost: append one entry to the call log. *)
Definition logCall (c : Call) (a : DisplayAnalyzer) : DisplayAnalyzer :=
  mkAnalyzer (mInitialized a) (mEnableVideoExtendedMode a) (mVideoExtendedMode a)
    (mForceCloneMode a) (mBlankDevice a) (mVideoPlaying a) (mVideoPreparing a)
    (mOverlayAllowed a) (mCachedDisplays a) (mPendingEvents a) (callLog a ++ [c]).

(** ** Machine integers *)

(** The result of an [int] operation, wrapped to 32 bits two's complement. *)
Definition to_int32 (z : Z) : Z := (z + 2 ^ 31) mod 2 ^ 32 - 2 ^ 31.

(** The cast [(uint32_t)]. *)
Definition to_uint32 (z : Z) : Z := z mod 2 ^ 32.

(** [x & mask] used as a condition. *)
Definition testFlag (x mask : Z) : bool := negb (Z.land x mask =? 0).

(** The layers a loop [for (j = 0; j < (int)numHwLayers - 1; j++)] visits:
    all but the last one, the frame buffer target. *)
Definition excludeTarget (ls : list hwc_layer_1_t) : list hwc_layer_1_t :=
  take (Z.to_nat (Z.of_nat (length ls) - 1)) ls.

(** [mCachedDisplays[i]], NULL also when the slot does not exist. *)
Definition cachedDisplay (a : DisplayAnalyzer) (i : nat) : option hwc_display_contents_1_t :=
  mjoin (mCachedDisplays a !! i).

(** ** The member functions of [DisplayAnalyzer] *)

Section Analyzer.
Context `{HwcDefs} `{Collaborators}.

(** The object the constructor builds. *)
Definition newDisplayAnalyzer : DisplayAnalyzer :=
  mkAnalyzer false true false false false false false true [] [] [].

(** The read of ["hwc.video.extmode.enable"] shared by [initialize] and
    [isVideoExtendedModeEnabled]. *)
Definition readEnableProperty (p : PropertyRead) (a : DisplayAnalyzer) : DisplayAnalyzer :=
  if 0 <? prop_len p
  then set_mEnableVideoExtendedMode (negb (prop_atoi p =? 0)) a
  else a.

Definition initialize (p : PropertyRead) (a : DisplayAnalyzer) : DisplayAnalyzer :=
  let a := readEnableProperty p a in
  mkAnalyzer true (mEnableVideoExtendedMode a) false false false false false true
    [] [] (callLog a).

Definition deinitialize (a : DisplayAnalyzer) : DisplayAnalyzer :=
  set_mInitialized false (set_mPendingEvents [] a).

(** The loop of [detectTrickMode]: the first layer carrying
    [HWC_TRICK_MODE] gets its composition type reset, and the scan stops. *)
Fixpoint scanTrickMode (ls : list hwc_layer_1_t) : bool * list hwc_layer_1_t :=
  match ls with
  | [] => (false, [])
  | layer :: rest =>
      if testFlag (flags layer) HWC_TRICK_MODE
      then (true, set_compositionType HWC_FRAMEBUFFER layer :: rest)
      else let '(detected, rest') := scanTrickMode rest in (detected, layer :: rest')
  end.

(** [detectTrickMode(list)]: the analyzer and the contents [list] points
    to, both after the call. *)
Definition detectTrickMode (a : DisplayAnalyzer) (list : option hwc_display_contents_1_t)
    : DisplayAnalyzer * option hwc_display_contents_1_t :=
  let a := logCall CallDetectTrickMode a in
  match list with
  | None => (a, None)
  | Some c =>
      let '(detected, ls) := scanTrickMode (hwLayers c) in
      let c := set_hwLayers ls c in
      if negb (eqb detected (mForceCloneMode a))
      then (set_mForceCloneMode detected a,
            Some (set_content_flags (Z.lor (content_flags c) HWC_GEOMETRY_CHANGED) c))
      else (a, Some c)
  end.

Definition isVideoLayer (layer : hwc_layer_1_t) : bool :=
  if handle layer =? 0 then false
  else match lockDataBuffer (to_uint32 (handle layer)) with
       | None => false
       | Some format => isVideoFormat format
       end.

Definition isVideoEmbedded (layer : hwc_layer_1_t) : bool :=
  match getModeInfo DEVICE_EXTERNAL with
  | None => false
  | Some mode =>
      let dstW := to_int32 (right (displayFrame layer) - left (displayFrame layer)) in
      let dstH := to_int32 (bottom (displayFrame layer) - top (displayFrame layer)) in
      (dstW <? hdisplay mode - 1) && (dstH <? vdisplay mode - 1)
  end.

(** One iteration of the counting loop of [detectVideoExtendedMode], on the
    pair [(activeDisplays, geometryChanged)]. *)
Definition countDisplay (acc : Z * bool) (content : option hwc_display_contents_1_t)
    : Z * bool :=
  match content with
  | None => acc
  | Some c =>
      (fst acc + 1,
       if testFlag (content_flags c) HWC_GEOMETRY_CHANGED then true else snd acc)
  end.

(** The scan of the primary display for a video layer:
    [(videoLayerExist, videoHandle)] when the loop is left. *)
Fixpoint scanVideoLayer (ls : list hwc_layer_1_t) : bool * Z :=
  match ls with
  | [] => (false, 0)
  | layer :: rest =>
      if isVideoLayer layer then (true, to_uint32 (handle layer))
      else scanVideoLayer rest
  end.

(** The inner loop over one secondary display: the first layer with the
    handle [videoHandle]. *)
Fixpoint scanHandle (videoHandle : Z) (ls : list hwc_layer_1_t) : option hwc_layer_1_t :=
  match ls with
  | [] => None
  | layer :: rest =>
      if to_uint32 (handle layer) =? videoHandle then Some layer
      else scanHandle videoHandle rest
  end.

(** The outer loop over the displays from slot 1 on: the layer at which the
    function returns, if any. *)
Fixpoint scanSecondary (videoHandle : Z) (ds : list (option hwc_display_contents_1_t))
    : option hwc_layer_1_t :=
  match ds with
  | [] => None
  | None :: rest => scanSecondary videoHandle rest
  | Some content :: rest =>
      match scanHandle videoHandle (excludeTarget (hwLayers content)) with
      | Some layer => Some layer
      | None => scanSecondary videoHandle rest
      end
  end.

Definition detectVideoExtendedMode (a : DisplayAnalyzer) : DisplayAnalyzer :=
  let a := logCall CallDetectVideoExtendedMode a in
  if negb (mVideoPlaying a)
  then set_mForceCloneMode false (set_mVideoExtendedMode false a)
  else
    let '(activeDisplays, geometryChanged) :=
      fold_left countDisplay (mCachedDisplays a) (0, false) in
    if activeDisplays <=? 1 then set_mVideoExtendedMode false a
    else if negb geometryChanged then a
    else
      let a := set_mVideoExtendedMode false a in
      match cachedDisplay a 0 with
      | None => a
      | Some content =>
          let '(videoLayerExist, videoHandle) :=
            scanVideoLayer (excludeTarget (hwLayers content)) in
          if negb videoLayerExist then a
          else match scanSecondary videoHandle (drop 1 (mCachedDisplays a)) with
               | None => a
               | Some layer =>
                   if negb (isVideoEmbedded layer)
                   then set_mVideoExtendedMode true a
                   else a
               end
      end.

Definition checkVideoExtendedMode (a : DisplayAnalyzer) : bool :=
  mVideoExtendedMode a && negb (mForceCloneMode a).

Definition isVideoExtendedModeEnabled (p : PropertyRead) (a : DisplayAnalyzer)
    : bool * DisplayAnalyzer :=
  let a := readEnableProperty p a in
  (mEnableVideoExtendedMode a, a).

Definition isVideoPlaying (a : DisplayAnalyzer) : bool := mVideoPlaying a.

Definition isOverlayAllowed (a : DisplayAnalyzer) : bool := mOverlayAllowed a.

Definition postEvent (e : Event) (a : DisplayAnalyzer) : DisplayAnalyzer :=
  set_mPendingEvents (mPendingEvents a ++ [e]) a.

Definition postHotplugEvent (connected : bool) (a : DisplayAnalyzer) : DisplayAnalyzer :=
  if negb connected then logCall CallResetVsyncSource a
  else logCall CallInvalidate (postEvent (HOTPLUG_EVENT connected) a).

Definition postVideoEvent (preparing playing : bool) (a : DisplayAnalyzer) : DisplayAnalyzer :=
  postEvent (VIDEO_EVENT preparing playing) a.

Definition postBlankEvent (blank : bool) (a : DisplayAnalyzer) : DisplayAnalyzer :=
  logCall CallInvalidate (postEvent (BLANK_EVENT blank) a).

(** The body of the layer loop of [blankSecondaryDevice]. *)
Definition blankLayer (blank : bool) (layer : hwc_layer_1_t) : hwc_layer_1_t :=
  if blank
  then set_compositionType HWC_OVERLAY
         (set_flags (Z.land (flags layer) (Z.lnot HWC_SKIP_LAYER))
            (set_hints (Z.lor (hints layer) HWC_HINT_CLEAR_FB) layer))
  else set_compositionType HWC_FRAMEBUFFER
         (set_hints (Z.land (hints layer) (Z.lnot HWC_HINT_CLEAR_FB)) layer).

Definition blankContent (blank : bool) (content : hwc_display_contents_1_t)
    : hwc_display_contents_1_t :=
  set_hwLayers
    (imap (fun j layer =>
             if Z.of_nat j <? Z.of_nat (length (hwLayers content)) - 1
             then blankLayer blank layer else layer)
          (hwLayers content))
    content.

Definition blankSecondaryDevice (a : DisplayAnalyzer) : DisplayAnalyzer :=
  let a := logCall CallBlankSecondaryDevice a in
  set_mCachedDisplays
    (imap (fun i content =>
             if Nat.eqb i DEVICE_PRIMARY then content
             else option_map (blankContent (mBlankDevice a)) content)
          (mCachedDisplays a))
    a.

Definition handleHotplugEvent (connected : bool) (a : DisplayAnalyzer) : DisplayAnalyzer :=
  logCall CallResetVsyncSource (logCall (CallHandleHotplugEvent connected) a).

Definition handleBlankEvent (blank : bool) (a : DisplayAnalyzer) : DisplayAnalyzer :=
  let a := logCall (CallHandleBlankEvent blank) a in
  let a := set_mBlankDevice blank a in
  let a :=
    set_mCachedDisplays
      (imap (fun i content =>
               if Nat.eqb i DEVICE_PRIMARY then content
               else option_map
                      (fun c => set_content_flags
                                  (Z.lor (content_flags c) HWC_GEOMETRY_CHANGED) c)
                      content)
            (mCachedDisplays a))
      a in
  blankSecondaryDevice a.

(** The transition on [preparing] is compiled out ([#if 0]). *)
Definition handleVideoEvent (preparing playing : bool) (a : DisplayAnalyzer) : DisplayAnalyzer :=
  set_mVideoPlaying playing (logCall (CallHandleVideoEvent preparing playing) a).

Definition dispatchEvent (e : Event) (a : DisplayAnalyzer) : DisplayAnalyzer :=
  match e with
  | HOTPLUG_EVENT connected => handleHotplugEvent connected a
  | BLANK_EVENT blank => handleBlankEvent blank a
  | VIDEO_EVENT preparing playing => handleVideoEvent preparing playing a
  end.

(** The [while (mPendingEvents.size() != 0)] loop, bounded by [fuel]
    iterations. *)
Fixpoint drainLoop (fuel : nat) (a : DisplayAnalyzer) : DisplayAnalyzer :=
  match fuel with
  | O => a
  | S fuel' =>
      match mPendingEvents a with
      | [] => a
      | e :: rest => drainLoop fuel' (dispatchEvent e (set_mPendingEvents rest a))
      end
  end.

(** Each iteration removes one event and no handler posts one, so the
    length of the queue bounds the number of iterations. *)
Definition handlePendingEvents (a : DisplayAnalyzer) : DisplayAnalyzer :=
  let a := logCall CallHandlePendingEvents a in
  match mPendingEvents a with
  | [] => a
  | _ => drainLoop (length (mPendingEvents a)) a
  end.

(** [analyzeContents(numDisplays, displays)]: the analyzer after the call
    and the display array as the call leaves it to the caller. *)
Definition analyzeContents (displays : list (option hwc_display_contents_1_t))
    (a : DisplayAnalyzer) : DisplayAnalyzer * list (option hwc_display_contents_1_t) :=
  let a := set_mCachedDisplays displays a in
  let a := handlePendingEvents a in
  let a := if mBlankDevice a then blankSecondaryDevice a else a in
  let a :=
    if mEnableVideoExtendedMode a then
      let a := detectVideoExtendedMode a in
      if mVideoExtendedMode a then
        let '(a, list) := detectTrickMode a (cachedDisplay a DEVICE_PRIMARY) in
        match list with
        | None => a
        | Some c => set_mCachedDisplays (<[DEVICE_PRIMARY := Some c]> (mCachedDisplays a)) a
        end
      else a
    else a in
  (set_mCachedDisplays [] a, mCachedDisplays a).

End Analyzer.

(** ** Notions used to state the properties *)

(** The number of slots of a display array that hold a display. *)
Fixpoint countActive (ds : list (option hwc_display_contents_1_t)) : Z :=
  match ds with
  | [] => 0
  | None :: rest => countActive rest
  | Some _ :: rest => 1 + countActive rest
  end.

(** Some active display of the array has [HWC_GEOMETRY_CHANGED] set. *)
Definition anyGeometryChanged `{HwcDefs} (ds : list (option hwc_display_contents_1_t)) : bool :=
  existsb (fun d => match d with
                    | None => false
                    | Some c => testFlag (content_flags c) HWC_GEOMETRY_CHANGED
                    end) ds.

(** The flags of every slot of a display array. *)
Definition slotFlags (ds : list (option hwc_display_contents_1_t)) : list (option Z) :=
  map (option_map content_flags) ds.

Definition isBlankEvent (e : Event) : bool :=
  match e with BLANK_EVENT _ => true | _ => false end.

(** The calls one pending event causes when it is handled. *)
Definition eventTrace (e : Event) : list Call :=
  match e with
  | HOTPLUG_EVENT connected => [CallHandleHotplugEvent connected; CallResetVsyncSource]
  | BLANK_EVENT blank => [CallHandleBlankEvent blank; CallBlankSecondaryDevice]
  | VIDEO_EVENT preparing playing => [CallHandleVideoEvent preparing playing]
  end.

(** The events whose handlers a call log shows, in the order of the log. *)
Fixpoint handledEvents (log : list Call) : list Event :=
  match log with
  | [] => []
  | CallHandleHotplugEvent connected :: rest => HOTPLUG_EVENT connected :: handledEvents rest
  | CallHandleBlankEvent blank :: rest => BLANK_EVENT blank :: handledEvents rest
  | CallHandleVideoEvent preparing playing :: rest =>
      VIDEO_EVENT preparing playing :: handledEvents rest
  | _ :: rest => handledEvents rest
  end.

(** What a handler does to the analyzer, the queue left aside: the
    sequential application of a list of events. *)
Definition applyEvents `{HwcDefs} (es : list Event) (a : DisplayAnalyzer) : DisplayAnalyzer :=
  fold_left (fun acc e => dispatchEvent e acc) es a.

Definition call_eqb (x y : Call) : bool :=
  match x, y with
  | CallHandlePendingEvents, CallHandlePendingEvents => true
  | CallHandleHotplugEvent b, CallHandleHotplugEvent b' => eqb b b'
  | CallHandleBlankEvent b, CallHandleBlankEvent b' => eqb b b'
  | CallHandleVideoEvent p q, CallHandleVideoEvent p' q' => eqb p p' && eqb q q'
  | CallBlankSecondaryDevice, CallBlankSecondaryDevice => true
  | CallDetectVideoExtendedMode, CallDetectVideoExtendedMode => true
  | CallDetectTrickMode, CallDetectTrickMode => true
  | CallResetVsyncSource, CallResetVsyncSource => true
  | CallInvalidate, CallInvalidate => true
  | _, _ => false
  end.

(** How often a call occurs in a log. *)
Definition countCall (x : Call) (log : list Call) : nat :=
  length (List.filter (call_eqb x) log).

(** Some occurrence of [x] in the log comes before some occurrence of [y]. *)
Fixpoint precedesb (x y : Call) (log : list Call) : bool :=
  match log with
  | [] => false
  | c :: rest => (call_eqb x c && existsb (call_eqb y) rest) || precedesb x y rest
  end.

(** The destination size [isVideoEmbedded] computes. *)
Definition dstW (layer : hwc_layer_1_t) : Z :=
  to_int32 (right (displayFrame layer) - left (displayFrame layer)).

Definition dstH (layer : hwc_layer_1_t) : Z :=
  to_int32 (bottom (displayFrame layer) - top (displayFrame layer)).

(** The analyzer as the two detectors of [analyzeContents] find it: the
    display array cached, the pending events handled and, when the blank
    flag is set, the secondary displays blanked. *)
Definition atDetection `{HwcDefs} (displays : list (option hwc_display_contents_1_t))
    (a : DisplayAnalyzer) : DisplayAnalyzer :=
  let a := handlePendingEvents (set_mCachedDisplays displays a) in
  if mBlankDevice a then blankSecondaryDevice a else a.

(** A layer as blanking ([blank = true]) or un-blanking leaves it. *)
Definition blankedAs `{HwcDefs} (blank : bool) (layer : hwc_layer_1_t) : Prop :=
  if blank
  then Z.land (hints layer) HWC_HINT_CLEAR_FB = HWC_HINT_CLEAR_FB /\
       Z.land (flags layer) HWC_SKIP_LAYER = 0 /\
       compositionType layer = HWC_OVERLAY
  else Z.land (hints layer) HWC_HINT_CLEAR_FB = 0 /\
       compositionType layer = HWC_FRAMEBUFFER.

(** Some layer of the list carries the trick-mode flag. *)
Definition trickModeFlagged `{HwcDefs} (ls : list hwc_layer_1_t) : bool :=
  existsb (fun l => testFlag (flags l) HWC_TRICK_MODE) ls.

(** ** A concrete platform and concrete frames *)

Module Sample.

(** The values of Android's [hwcomposer_defs.h]; [HWC_TRICK_MODE] is a
    vendor flag, taken here as a bit of its own. *)
Definition defs : HwcDefs := {|
  HWC_GEOMETRY_CHANGED := 1;
  HWC_TRICK_MODE := 4;
  HWC_SKIP_LAYER := 1;
  HWC_HINT_CLEAR_FB := 2;
  HWC_FRAMEBUFFER := 0;
  HWC_OVERLAY := 1
|}.

(** Buffer [0x1000] holds a video frame (format 256), buffer [0x2000] an
    RGB surface (format 1); no other buffer can be locked.  The external
    display runs at 1920x1080. *)
Definition collab (mode : option drmModeModeInfo) : Collaborators := {|
  lockDataBuffer := fun h =>
    if h =? 4096 then Some 256 else if h =? 8192 then Some 1 else None;
  isVideoFormat := fun f => f =? 256;
  getModeInfo := fun _ => mode;
  DEVICE_EXTERNAL := 1%nat
|}.

Definition hd1080 : option drmModeModeInfo := Some (mkMode 1920 1080).

Definition rect (w h : Z) : hwc_rect_t := mkRect 0 0 w h.

(** A layer showing buffer [h] in a [w] x [ht] destination. *)
Definition layer (h fl w ht : Z) : hwc_layer_1_t :=
  mkLayer 0 0 fl h 0 (rect w ht) (rect w ht).

(** The frame buffer target closing every layer list. *)
Definition fbTarget : hwc_layer_1_t := layer 12288 0 1920 1080.

(** Primary display: the video full screen.  Secondary display: the same
    buffer in a [w] x [ht] destination. *)
Definition primaryVideo (geom : Z) : hwc_display_contents_1_t :=
  mkContents geom [layer 4096 0 1920 1080; fbTarget].

Definition secondaryVideo (geom w ht : Z) : hwc_display_contents_1_t :=
  mkContents geom [layer 4096 0 w ht; fbTarget].

Definition twoDisplays (geom w ht : Z) : list (option hwc_display_contents_1_t) :=
  [Some (primaryVideo geom); Some (secondaryVideo geom w ht)].

(** A primary display whose only layer is a trick-mode RGB surface. *)
Definition primaryTrick (geom : Z) : hwc_display_contents_1_t :=
  mkContents geom [layer 8192 4 1920 1080; fbTarget].

(** An initialized analyzer with extended mode support on and a video
    playing. *)
Definition playing : DisplayAnalyzer :=
  mkAnalyzer true true false false false true false true [] [] [].

(** The same analyzer reached through the interface: initialized with the
    property at its default, told that a video plays, and run on a frame
    that shows the video full screen on the secondary display.  It ends in
    extended mode. *)
Definition started : DisplayAnalyzer :=
  postVideoEvent false true (initialize (mkProp 1 1) newDisplayAnalyzer).

Definition extended : DisplayAnalyzer :=
  fst (@analyzeContents defs (collab hd1080) (twoDisplays 1 1920 1080) started).

(** Then the property is set to 0 and read again. *)
Definition switchedOff : DisplayAnalyzer :=
  snd (isVideoExtendedModeEnabled (mkProp 1 0) extended).

(** A frame whose primary video layer carries the trick-mode flag while the
    secondary display shows the video full screen, and the analyzer after
    that frame: extended mode and forced clone mode are both on. *)
Definition trickVideoFrame : list (option hwc_display_contents_1_t) :=
  [Some (mkContents 1 [layer 4096 4 1920 1080; fbTarget]);
   Some (secondaryVideo 1 1920 1080)].

Definition trickPlaying : DisplayAnalyzer :=
  fst (@analyzeContents defs (collab hd1080) trickVideoFrame started).

End Sample.

(** ** The interface of the analyzer as a whole *)

(** The calls other parts of the composer make on the analyzer. *)
Inductive Request :=
| ReqInitialize (p : PropertyRead)
| ReqDeinitialize
| ReqAnalyzeContents (displays : list (option hwc_display_contents_1_t))
| ReqIsVideoExtendedModeEnabled (p : PropertyRead)
| ReqPostHotplugEvent (connected : bool)
| ReqPostVideoEvent (preparing playing : bool)
| ReqPostBlankEvent (blank : bool).

(** The analyzer after one call, and after a sequence of calls. *)
Definition serve `{HwcDefs} `{Collaborators} (r : Request) (a : DisplayAnalyzer)
    : DisplayAnalyzer :=
  match r with
  | ReqInitialize p => initialize p a
  | ReqDeinitialize => deinitialize a
  | ReqAnalyzeContents displays => fst (analyzeContents displays a)
  | ReqIsVideoExtendedModeEnabled p => snd (isVideoExtendedModeEnabled p a)
  | ReqPostHotplugEvent connected => postHotplugEvent connected a
  | ReqPostVideoEvent preparing playing => postVideoEvent preparing playing a
  | ReqPostBlankEvent blank => postBlankEvent blank a
  end.

Definition serveAll `{HwcDefs} `{Collaborators} (rs : list Request) (a : DisplayAnalyzer)
    : DisplayAnalyzer :=
  fold_left (fun acc r => serve r acc) rs a.



(** The value of the playing flag and of the blank flag once a list of
    events has been handled: the one the last event of its kind carries. *)
Definition playingAfter (es : list Event) (playing : bool) : bool :=
  fold_left (fun p e => match e with VIDEO_EVENT _ q => q | _ => p end) es playing.

Definition blankAfter (es : list Event) (blank : bool) : bool :=
  fold_left (fun b e => match e with BLANK_EVENT q => q | _ => b end) es blank.

Definition isHotplugEvent (e : Event) : bool :=
  match e with HOTPLUG_EVENT _ => true | _ => false end.

(** What the analyzer never writes in a layer: the buffer, the transform
    and the two rectangles. *)
Definition layerIdentity (l : hwc_layer_1_t) : Z * Z * hwc_rect_t * hwc_rect_t :=
  (handle l, transform l, sourceCrop l, displayFrame l).

(** The identity of every layer of every slot of a display array. *)
Definition arrayIdentity (ds : list (option hwc_display_contents_1_t))
    : list (option (list (Z * Z * hwc_rect_t * hwc_rect_t))) :=
  map (option_map (fun c => map layerIdentity (hwLayers c))) ds.

(** The part of the analyzer no frame and no event writes. *)
Definition configOf (a : DisplayAnalyzer) : bool * bool * bool * bool :=
  (mInitialized a, mEnableVideoExtendedMode a, mVideoPreparing a, mOverlayAllowed a).

(** The first layer of a list carrying [HWC_TRICK_MODE], reset to
    [HWC_FRAMEBUFFER]; the other layers as they are. *)
Fixpoint resetFirstTrickLayer `{HwcDefs} (ls : list hwc_layer_1_t) : list hwc_layer_1_t :=
  match ls with
  | [] => []
  | l :: rest =>
      if testFlag (flags l) HWC_TRICK_MODE
      then set_compositionType HWC_FRAMEBUFFER l :: rest
      else l :: resetFirstTrickLayer rest
  end.

(** * TngDisplayContext: handing the flipped planes to the display device

    A shallow embedding of [ips/tangier/TngDisplayContext.cpp].  The class
    declaration, [MAXIMUM_LAYER_NUMBER], the plane classes and the IMG
    gralloc module are declared outside the file and are taken as follows:
    - the array [mImgLayers] is a list, written at index [mCount];
    - an entry points to a layer of the caller's display; it holds the layer;
    - a [DisplayPlane] is given by what its [flip()] and [getContext()]
      return; a [HwcLayerList] by its [getPlane];
    - the display device is given by what its [post] returns.
    [flips] and [posts] are ghost fields: the planes flipped, with the
    result, and the layer arrays posted, in program order. *)

Module Tng.

Record IMG_hwc_layer_t := mkImgLayer {
  psLayer : hwc_layer_1_t;
  custom : Z
}.

Record DisplayPlane := mkPlane {
  flip : bool;
  getContext : Z
}.

Definition HwcLayerList : Type := nat -> option DisplayPlane.

Record IMG_display_device_public_t := mkDevice {
  post : list IMG_hwc_layer_t -> Z
}.

Record TngDisplayContext := mkContext {
  mIMGDisplayDevice : option IMG_display_device_public_t;
  mInitialized : bool;
  mCount : nat;
  mImgLayers : list IMG_hwc_layer_t;
  flips : list (nat * bool);
  posts : list (list IMG_hwc_layer_t)
}.

Section Context_.
(** The capacity of [mImgLayers]. *)
Variable MAXIMUM_LAYER_NUMBER : nat.

(** The object the constructor builds, over the storage of the array. *)
Definition newContext (storage : list IMG_hwc_layer_t) : TngDisplayContext :=
  mkContext None false 0 storage [] [].

(** [initialize()], given what [hw_get_module] returns and the
    [psDisplayDevice] of the module it finds. *)
Definition initialize (err : Z) (psDisplayDevice : option IMG_display_device_public_t)
    (c : TngDisplayContext) : bool * TngDisplayContext :=
  if negb (err =? 0) then (false, c)
  else
    match psDisplayDevice with
    | None =>
        (false, mkContext None (mInitialized c) (mCount c) (mImgLayers c) (flips c) (posts c))
    | Some device =>
        (true, mkContext (Some device) true 0 (mImgLayers c) (flips c) (posts c))
    end.

(** [RETURN_FALSE_IF_NOT_INIT()] is a macro of [HwcTrace.h]; it is read as
    its name says: the function returns false when [mInitialized] is
    false. *)
Definition commitBegin (c : TngDisplayContext) : bool * TngDisplayContext :=
  if negb (mInitialized c) then (false, c)
  else (true, mkContext (mIMGDisplayDevice c) (mInitialized c) 0 (mImgLayers c)
                 (flips c) (posts c)).

(** The loop of [commitContents] from layer [i] on. *)
Fixpoint commitLayers (layerList : HwcLayerList) (i : nat) (ls : list hwc_layer_1_t)
    (c : TngDisplayContext) : bool * TngDisplayContext :=
  match ls with
  | [] => (true, c)
  | layer :: rest =>
      if (MAXIMUM_LAYER_NUMBER <=? mCount c)%nat then (false, c)
      else if handle layer =? 0 then commitLayers layerList (S i) rest c
      else
        match layerList i with
        | None => commitLayers layerList (S i) rest c
        | Some plane =>
            let c := mkContext (mIMGDisplayDevice c) (mInitialized c) (mCount c)
                       (mImgLayers c) (flips c ++ [(i, flip plane)]) (posts c) in
            if negb (flip plane) then commitLayers layerList (S i) rest c
            else
              commitLayers layerList (S i) rest
                (mkContext (mIMGDisplayDevice c) (mInitialized c) (S (mCount c))
                   (<[mCount c := mkImgLayer layer (to_uint32 (getContext plane))]>
                      (mImgLayers c))
                   (flips c) (posts c))
        end
  end.

Definition commitContents (display : option hwc_display_contents_1_t)
    (layerList : option HwcLayerList) (c : TngDisplayContext)
    : bool * TngDisplayContext :=
  if negb (mInitialized c) then (false, c)
  else
    match display, layerList with
    | Some d, Some ll => commitLayers ll 0 (hwLayers d) c
    | _, _ => (false, c)
    end.

Definition commitEnd (c : TngDisplayContext) : bool * TngDisplayContext :=
  if (mCount c =? 0)%nat then (true, c)
  else
    match mIMGDisplayDevice c with
    | Some device =>
        let layers := take (mCount c) (mImgLayers c) in
        let c' := mkContext (mIMGDisplayDevice c) (mInitialized c) (mCount c)
                    (mImgLayers c) (flips c) (posts c ++ [layers]) in
        if negb (post device layers =? 0) then (false, c') else (true, c')
    | None => (true, c)
    end.

Definition compositionComplete (c : TngDisplayContext) : bool := true.

Definition deinitialize (c : TngDisplayContext) : TngDisplayContext :=
  mkContext None false 0 (mImgLayers c) (flips c) (posts c).

(** [commitContents] for one display after the other, as long as it
    succeeds. *)
Fixpoint commitAll (frames : list (hwc_display_contents_1_t * HwcLayerList))
    (c : TngDisplayContext) : bool * TngDisplayContext :=
  match frames with
  | [] => (true, c)
  | (d, ll) :: rest =>
      let '(ok, c') := commitContents (Some d) (Some ll) c in
      if ok then commitAll rest c' else (false, c')
  end.

End Context_.

(** The entries [commitContents] is to record for the layers of a display,
    numbered from [i] on: one for each layer with a buffer whose plane
    exists and flips. *)
Fixpoint flippedLayers (layerList : HwcLayerList) (i : nat) (ls : list hwc_layer_1_t)
    : list IMG_hwc_layer_t :=
  match ls with
  | [] => []
  | layer :: rest =>
      (if handle layer =? 0 then []
       else match layerList i with
            | Some plane =>
                if flip plane then [mkImgLayer layer (to_uint32 (getContext plane))]
                else []
            | None => []
            end)
      ++ flippedLayers layerList (S i) rest
  end.

Definition frameLayers (frames : list (hwc_display_contents_1_t * HwcLayerList))
    : list IMG_hwc_layer_t :=
  flat_map (fun f => flippedLayers (snd f) 0 (hwLayers (fst f))) frames.

(** The flips of a log that succeeded. *)
Definition flipsDone (log : list (nat * bool)) : nat :=
  length (List.filter snd log).

(** A context with room for 4 layers on a device that accepts every post,
    a display of three layers and a layer list whose second plane fails
    to flip. *)
Definition sampleDevice : IMG_display_device_public_t := mkDevice (fun _ => 0).

Definition sampleStorage : list IMG_hwc_layer_t :=
  replicate 4 (mkImgLayer Sample.fbTarget 0).

Definition sampleContext : TngDisplayContext :=
  snd (initialize 0 (Some sampleDevice) (newContext sampleStorage)).

Definition sampleDisplay : hwc_display_contents_1_t :=
  mkContents 0 [Sample.layer 4096 0 1920 1080; Sample.layer 8192 0 640 480;
                Sample.fbTarget].

Definition samplePlanes : HwcLayerList :=
  fun i => match i with
           | 0%nat => Some (mkPlane true 7)
           | 1%nat => Some (mkPlane false 8)
           | 2%nat => Some (mkPlane true 9)
           | _ => None
           end.

End Tng.

(** ** Properties of the event queue *)

Section QueueFacts.
Context `{HwcDefs} `{Collaborators}.

Lemma set_mPendingEvents_same (a : DisplayAnalyzer) :
  set_mPendingEvents (mPendingEvents a) a = a.
Proof. destruct a; reflexivity. Qed.

Lemma dispatchEvent_set_pending (e : Event) (q : list Event) (a : DisplayAnalyzer) :
  dispatchEvent e (set_mPendingEvents q a) = set_mPendingEvents q (dispatchEvent e a).
Proof. destruct e; reflexivity. Qed.

Lemma applyEvents_set_pending (es q : list Event) (a : DisplayAnalyzer) :
  applyEvents es (set_mPendingEvents q a) = set_mPendingEvents q (applyEvents es a).
Proof.
  revert a; induction es as [|e es IH]; intros a; [reflexivity|].
  cbn [applyEvents fold_left]. rewrite dispatchEvent_set_pending. apply IH.
Qed.

(** Every handler leaves the queue, the extended mode flag, the clone flag
    and the support switch alone, and logs its own calls. *)
Lemma dispatchEvent_frame (e : Event) (a : DisplayAnalyzer) :
  mPendingEvents (dispatchEvent e a) = mPendingEvents a /\
  mVideoExtendedMode (dispatchEvent e a) = mVideoExtendedMode a /\
  mForceCloneMode (dispatchEvent e a) = mForceCloneMode a /\
  mEnableVideoExtendedMode (dispatchEvent e a) = mEnableVideoExtendedMode a /\
  callLog (dispatchEvent e a) = callLog a ++ eventTrace e.
Proof.
  destruct e; cbn; rewrite <- ?app_assoc; repeat split; reflexivity.
Qed.

Lemma applyEvents_frame (es : list Event) (a : DisplayAnalyzer) :
  mPendingEvents (applyEvents es a) = mPendingEvents a /\
  mVideoExtendedMode (applyEvents es a) = mVideoExtendedMode a /\
  mForceCloneMode (applyEvents es a) = mForceCloneMode a /\
  mEnableVideoExtendedMode (applyEvents es a) = mEnableVideoExtendedMode a /\
  callLog (applyEvents es a) = callLog a ++ flat_map eventTrace es.
Proof.
  revert a; induction es as [|e es IH]; intros a.
  - cbn. rewrite app_nil_r. repeat split; reflexivity.
  - cbn [applyEvents fold_left flat_map].
    destruct (IH (dispatchEvent e a)) as (Hq & Hv & Hf & He & Hl).
    destruct (dispatchEvent_frame e a) as (Hq' & Hv' & Hf' & He' & Hl').
    unfold applyEvents in *.
    rewrite Hq, Hv, Hf, He, Hl, Hq', Hv', Hf', He', Hl', <- app_assoc.
    repeat split; reflexivity.
Qed.

(** The loop, given at least as much fuel as the queue is long, handles the
    whole queue front to back and leaves it empty. *)
Lemma drainLoop_applyEvents (fuel : nat) (a : DisplayAnalyzer) :
  (length (mPendingEvents a) <= fuel)%nat ->
  drainLoop fuel a = set_mPendingEvents [] (applyEvents (mPendingEvents a) a).
Proof.
  revert a; induction fuel as [|fuel IH]; intros a Hlen.
  - destruct (mPendingEvents a) eqn:Hq; [|cbn in Hlen; lia].
    cbn. rewrite <- Hq. symmetry; apply set_mPendingEvents_same.
  - cbn [drainLoop]. destruct (mPendingEvents a) as [|e rest] eqn:Hq.
    + cbn. rewrite <- Hq. symmetry; apply set_mPendingEvents_same.
    + rewrite IH.
      * rewrite dispatchEvent_set_pending. cbn [mPendingEvents set_mPendingEvents].
        rewrite applyEvents_set_pending. reflexivity.
      * rewrite dispatchEvent_set_pending. cbn. cbn in Hlen. lia.
Qed.

Lemma handlePendingEvents_applyEvents (a : DisplayAnalyzer) :
  handlePendingEvents a =
  set_mPendingEvents []
    (applyEvents (mPendingEvents a) (logCall CallHandlePendingEvents a)).
Proof.
  unfold handlePendingEvents.
  destruct (mPendingEvents (logCall CallHandlePendingEvents a)) eqn:Hq.
  - cbn in Hq. rewrite Hq. cbn. rewrite <- Hq at 1.
    symmetry. apply (set_mPendingEvents_same (logCall CallHandlePendingEvents a)).
  - rewrite <- Hq. rewrite drainLoop_applyEvents by reflexivity. reflexivity.
Qed.

Lemma handlePendingEvents_frame (a : DisplayAnalyzer) :
  mPendingEvents (handlePendingEvents a) = [] /\
  mVideoExtendedMode (handlePendingEvents a) = mVideoExtendedMode a /\
  mForceCloneMode (handlePendingEvents a) = mForceCloneMode a /\
  mEnableVideoExtendedMode (handlePendingEvents a) = mEnableVideoExtendedMode a /\
  callLog (handlePendingEvents a) =
    callLog a ++ CallHandlePendingEvents :: flat_map eventTrace (mPendingEvents a).
Proof.
  rewrite handlePendingEvents_applyEvents.
  destruct (applyEvents_frame (mPendingEvents a) (logCall CallHandlePendingEvents a))
    as (_ & Hv & Hf & He & Hl).
  cbn. rewrite Hv, Hf, He, Hl. cbn. rewrite <- app_assoc.
  repeat split; reflexivity.
Qed.

Lemma handledEvents_app (l1 l2 : list Call) :
  handledEvents (l1 ++ l2) = handledEvents l1 ++ handledEvents l2.
Proof.
  induction l1 as [|c l1 IH]; [reflexivity|].
  destruct c; cbn; rewrite ?IH; reflexivity.
Qed.

Lemma handledEvents_eventTrace (es : list Event) :
  handledEvents (flat_map eventTrace es) = es.
Proof.
  induction es as [|e es IH]; [reflexivity|].
  destruct e; cbn; rewrite IH; reflexivity.
Qed.

Lemma postEvents_pending (es : list Event) (a : DisplayAnalyzer) :
  mPendingEvents (fold_left (fun acc e => postEvent e acc) es a) = mPendingEvents a ++ es /\
  callLog (fold_left (fun acc e => postEvent e acc) es a) = callLog a.
Proof.
  revert a; induction es as [|e es IH]; intros a.
  - cbn. rewrite app_nil_r. split; reflexivity.
  - cbn [fold_left]. destruct (IH (postEvent e a)) as [Hq Hl].
    rewrite Hq, Hl. cbn. rewrite <- app_assoc. split; reflexivity.
Qed.

End QueueFacts.

(** ** Properties of the display array *)

Section DisplayFacts.
Context `{HwcDefs} `{Collaborators}.

(** The counting loop computes the number of active displays and whether
    one of them changed geometry. *)
Lemma fold_countDisplay (ds : list (option hwc_display_contents_1_t)) (n : Z) (g : bool) :
  fold_left countDisplay ds (n, g) = (n + countActive ds, g || anyGeometryChanged ds).
Proof.
  revert n g; induction ds as [|d ds IH]; intros n g.
  - cbn. rewrite Z.add_0_r, orb_false_r. reflexivity.
  - destruct d as [c|]; cbn [fold_left countDisplay countActive fst snd].
    + rewrite IH. unfold anyGeometryChanged. cbn [existsb].
      f_equal; [lia|].
      destruct (testFlag (content_flags c) HWC_GEOMETRY_CHANGED), g; reflexivity.
    + rewrite IH. reflexivity.
Qed.

Lemma countActive_nonneg (ds : list (option hwc_display_contents_1_t)) :
  0 <= countActive ds.
Proof. induction ds as [|[c|] ds IH]; cbn [countActive]; lia. Qed.

Lemma countActive_imap
    (f : nat -> option hwc_display_contents_1_t -> option hwc_display_contents_1_t)
    (ds : list (option hwc_display_contents_1_t)) :
  (forall i, f i None = None) ->
  (forall i c, f i (Some c) <> None) ->
  countActive (imap f ds) = countActive ds.
Proof.
  revert f; induction ds as [|d ds IH]; intros f Hn Hs; [reflexivity|].
  cbn [imap]. destruct d as [c|].
  - destruct (f 0%nat (Some c)) eqn:E; [|exfalso; exact (Hs _ _ E)].
    cbn [countActive]. rewrite IH; [reflexivity| |]; intros; unfold compose; auto.
  - rewrite Hn. cbn [countActive]. apply IH; intros; unfold compose; auto.
Qed.

Lemma slotFlags_imap
    (f : nat -> option hwc_display_contents_1_t -> option hwc_display_contents_1_t)
    (ds : list (option hwc_display_contents_1_t)) :
  (forall i d, option_map content_flags (f i d) = option_map content_flags d) ->
  slotFlags (imap f ds) = slotFlags ds.
Proof.
  revert f; induction ds as [|d ds IH]; intros f Hf; [reflexivity|].
  cbn [imap slotFlags map]. rewrite Hf. f_equal.
  apply IH. intros; unfold compose; apply Hf.
Qed.

Lemma countActive_slotFlags (ds1 ds2 : list (option hwc_display_contents_1_t)) :
  slotFlags ds1 = slotFlags ds2 -> countActive ds1 = countActive ds2.
Proof.
  revert ds2; induction ds1 as [|d1 ds1 IH]; intros [|d2 ds2] E; try discriminate E;
    [reflexivity|].
  cbn in E. injection E as E1 E2. apply IH in E2.
  destruct d1, d2; try discriminate E1; cbn [countActive]; lia.
Qed.

Lemma anyGeometryChanged_slotFlags (ds1 ds2 : list (option hwc_display_contents_1_t)) :
  slotFlags ds1 = slotFlags ds2 -> anyGeometryChanged ds1 = anyGeometryChanged ds2.
Proof.
  revert ds2; induction ds1 as [|d1 ds1 IH]; intros [|d2 ds2] E; try discriminate E;
    [reflexivity|].
  cbn in E. injection E as E1 E2. apply IH in E2.
  unfold anyGeometryChanged in *. cbn [existsb]. rewrite E2.
  destruct d1, d2; try discriminate E1; [|reflexivity].
  cbn in E1. injection E1 as E1. rewrite E1. reflexivity.
Qed.

(** No active display has the geometry flag set. *)
Lemma anyGeometryChanged_false (ds : list (option hwc_display_contents_1_t)) :
  anyGeometryChanged ds = false <->
  (forall i c, ds !! i = Some (Some c) ->
               Z.land (content_flags c) HWC_GEOMETRY_CHANGED = 0).
Proof.
  unfold anyGeometryChanged. induction ds as [|d ds IH]; cbn [existsb].
  - split; [intros _ i c E; destruct i; discriminate E | reflexivity].
  - rewrite orb_false_iff, IH. split.
    + intros [Hd Hds] [|i] c E; cbn in E.
      * injection E as ->. unfold testFlag in Hd.
        apply negb_false_iff, Z.eqb_eq in Hd. exact Hd.
      * eapply Hds; exact E.
    + intros Hall. split.
      * destruct d as [c|]; [|reflexivity].
        unfold testFlag. apply negb_false_iff, Z.eqb_eq.
        apply (Hall 0%nat c). reflexivity.
      * intros i c E. apply (Hall (S i) c). exact E.
Qed.

(** [blankSecondaryDevice] touches layers only. *)
Lemma blankSecondaryDevice_frame (a : DisplayAnalyzer) :
  mVideoExtendedMode (blankSecondaryDevice a) = mVideoExtendedMode a /\
  mForceCloneMode (blankSecondaryDevice a) = mForceCloneMode a /\
  mEnableVideoExtendedMode (blankSecondaryDevice a) = mEnableVideoExtendedMode a /\
  mVideoPlaying (blankSecondaryDevice a) = mVideoPlaying a /\
  mBlankDevice (blankSecondaryDevice a) = mBlankDevice a /\
  mPendingEvents (blankSecondaryDevice a) = mPendingEvents a /\
  callLog (blankSecondaryDevice a) = callLog a ++ [CallBlankSecondaryDevice] /\
  slotFlags (mCachedDisplays (blankSecondaryDevice a)) = slotFlags (mCachedDisplays a).
Proof.
  unfold blankSecondaryDevice. cbn. repeat split.
  apply slotFlags_imap. intros i d.
  destruct (Nat.eqb i DEVICE_PRIMARY); [reflexivity|]. destruct d; reflexivity.
Qed.

Lemma dispatchEvent_countActive (e : Event) (a : DisplayAnalyzer) :
  countActive (mCachedDisplays (dispatchEvent e a)) = countActive (mCachedDisplays a).
Proof.
  destruct e; cbn; try reflexivity.
  rewrite !countActive_imap; try reflexivity;
    intros i; intros; destruct (Nat.eqb i DEVICE_PRIMARY); cbn; congruence.
Qed.

Lemma applyEvents_countActive (es : list Event) (a : DisplayAnalyzer) :
  countActive (mCachedDisplays (applyEvents es a)) = countActive (mCachedDisplays a).
Proof.
  revert a; induction es as [|e es IH]; intros a; [reflexivity|].
  cbn [applyEvents fold_left]. unfold applyEvents in IH.
  rewrite IH. apply dispatchEvent_countActive.
Qed.

(** Hot-plug and video events leave the display array and the blank flag
    alone. *)
Lemma applyEvents_no_blank (es : list Event) (a : DisplayAnalyzer) :
  forallb (fun e => negb (isBlankEvent e)) es = true ->
  mCachedDisplays (applyEvents es a) = mCachedDisplays a /\
  mBlankDevice (applyEvents es a) = mBlankDevice a.
Proof.
  revert a; induction es as [|e es IH]; intros a Hnb; [split; reflexivity|].
  cbn in Hnb. apply andb_true_iff in Hnb as [He Hes].
  cbn [applyEvents fold_left]. unfold applyEvents in IH.
  destruct (IH (dispatchEvent e a) Hes) as [Hc Hb]. rewrite Hc, Hb.
  destruct e; [| discriminate He |]; split; reflexivity.
Qed.

End DisplayFacts.

(** ** Properties of the detectors *)

Section DetectorFacts.
Context `{HwcDefs} `{Collaborators}.

Lemma cachedDisplay_upd (a b : DisplayAnalyzer) (i : nat) :
  mCachedDisplays a = mCachedDisplays b -> cachedDisplay a i = cachedDisplay b i.
Proof. unfold cachedDisplay. intros ->. reflexivity. Qed.

(** The branches of [detectVideoExtendedMode], one lemma each. *)
Lemma detect_not_playing (a : DisplayAnalyzer) :
  mVideoPlaying a = false ->
  detectVideoExtendedMode a =
  set_mForceCloneMode false
    (set_mVideoExtendedMode false (logCall CallDetectVideoExtendedMode a)).
Proof. intros Hp. unfold detectVideoExtendedMode. cbn. rewrite Hp. reflexivity. Qed.

Lemma detect_single_display (a : DisplayAnalyzer) :
  mVideoPlaying a = true ->
  countActive (mCachedDisplays a) <= 1 ->
  detectVideoExtendedMode a =
  set_mVideoExtendedMode false (logCall CallDetectVideoExtendedMode a).
Proof.
  intros Hp Hc. unfold detectVideoExtendedMode. cbn. rewrite Hp. cbn.
  rewrite fold_countDisplay, Z.add_0_l. cbn.
  destruct (Z.leb_spec (countActive (mCachedDisplays a)) 1); [reflexivity | lia].
Qed.

Lemma detect_no_geometry_change (a : DisplayAnalyzer) :
  mVideoPlaying a = true ->
  2 <= countActive (mCachedDisplays a) ->
  anyGeometryChanged (mCachedDisplays a) = false ->
  detectVideoExtendedMode a = logCall CallDetectVideoExtendedMode a.
Proof.
  intros Hp Hc Hg. unfold detectVideoExtendedMode. cbn. rewrite Hp. cbn.
  rewrite fold_countDisplay, Z.add_0_l. cbn. rewrite Hg.
  destruct (Z.leb_spec (countActive (mCachedDisplays a)) 1); [lia | reflexivity].
Qed.

Lemma detect_matched_layer (a : DisplayAnalyzer) (content : hwc_display_contents_1_t)
    (videoHandle : Z) (layer : hwc_layer_1_t) :
  mVideoPlaying a = true ->
  2 <= countActive (mCachedDisplays a) ->
  anyGeometryChanged (mCachedDisplays a) = true ->
  cachedDisplay a 0 = Some content ->
  scanVideoLayer (excludeTarget (hwLayers content)) = (true, videoHandle) ->
  scanSecondary videoHandle (drop 1 (mCachedDisplays a)) = Some layer ->
  detectVideoExtendedMode a =
  set_mVideoExtendedMode (negb (isVideoEmbedded layer))
    (logCall CallDetectVideoExtendedMode a).
Proof.
  intros Hp Hc Hg Hprim Hv Hs. unfold detectVideoExtendedMode. cbn. rewrite Hp. cbn.
  rewrite fold_countDisplay, Z.add_0_l. cbn. rewrite Hg.
  destruct (Z.leb_spec (countActive (mCachedDisplays a)) 1); [lia|]. cbn.
  unfold cachedDisplay in *. cbn. rewrite Hprim, Hv. cbn. rewrite Hs.
  destruct (isVideoEmbedded layer); reflexivity.
Qed.

(** Whatever branch is taken, extended mode detection changes the two mode
    flags and the log only. *)
Lemma detect_frame (a : DisplayAnalyzer) :
  mEnableVideoExtendedMode (detectVideoExtendedMode a) = mEnableVideoExtendedMode a /\
  mBlankDevice (detectVideoExtendedMode a) = mBlankDevice a /\
  mVideoPlaying (detectVideoExtendedMode a) = mVideoPlaying a /\
  mPendingEvents (detectVideoExtendedMode a) = mPendingEvents a /\
  mCachedDisplays (detectVideoExtendedMode a) = mCachedDisplays a /\
  callLog (detectVideoExtendedMode a) = callLog a ++ [CallDetectVideoExtendedMode].
Proof.
  unfold detectVideoExtendedMode.
  repeat match goal with
         | |- context [let '(_, _) := ?p in _] => destruct p
         | |- context [if ?b then _ else _] => destruct b
         | |- context [match ?o with Some _ => _ | None => _ end] => destruct o
         end; cbn; repeat split; reflexivity.
Qed.

(** With fewer than two active displays, or with no video playing, the
    detection ends with extended mode off. *)
Lemma detect_off (a : DisplayAnalyzer) :
  mVideoPlaying a = false \/ countActive (mCachedDisplays a) <= 1 ->
  mVideoExtendedMode (detectVideoExtendedMode a) = false.
Proof.
  destruct (mVideoPlaying a) eqn:Hp.
  - intros [Hf | Hc]; [discriminate Hf|].
    rewrite detect_single_display by assumption. reflexivity.
  - intros _. rewrite detect_not_playing by assumption. reflexivity.
Qed.

(** The scan of [detectTrickMode] finds a layer exactly when some layer has
    the trick-mode flag; it leaves every layer's flags as they are. *)
Lemma scanTrickMode_detected (ls : list hwc_layer_1_t) :
  fst (scanTrickMode ls) = trickModeFlagged ls.
Proof.
  unfold trickModeFlagged.
  induction ls as [|l ls IH]; [reflexivity|]. cbn [scanTrickMode existsb].
  destruct (testFlag (flags l) HWC_TRICK_MODE); [reflexivity|].
  destruct (scanTrickMode ls) as [d r]. cbn in *. exact IH.
Qed.

Lemma scanTrickMode_flags (ls : list hwc_layer_1_t) :
  map flags (snd (scanTrickMode ls)) = map flags ls.
Proof.
  induction ls as [|l ls IH]; [reflexivity|]. cbn [scanTrickMode].
  destruct (testFlag (flags l) HWC_TRICK_MODE); [reflexivity|].
  destruct (scanTrickMode ls) as [d r]. cbn in *. rewrite IH. reflexivity.
Qed.

Lemma existsb_flags (ls1 ls2 : list hwc_layer_1_t) (mask : Z) :
  map flags ls1 = map flags ls2 ->
  existsb (fun l => testFlag (flags l) mask) ls1 =
  existsb (fun l => testFlag (flags l) mask) ls2.
Proof.
  revert ls2; induction ls1 as [|l1 ls1 IH]; intros [|l2 ls2] E; try discriminate E;
    [reflexivity|].
  cbn in E. injection E as E1 E2. cbn [existsb]. rewrite E1, (IH _ E2). reflexivity.
Qed.

(** A second scan over the layers a scan left behind detects the same. *)
Lemma scanTrickMode_again (ls : list hwc_layer_1_t) :
  fst (scanTrickMode (snd (scanTrickMode ls))) = fst (scanTrickMode ls).
Proof.
  rewrite !scanTrickMode_detected. apply existsb_flags, scanTrickMode_flags.
Qed.

(** [detectTrickMode] in closed form. *)
Lemma detectTrickMode_eq (a : DisplayAnalyzer) (c : hwc_display_contents_1_t) :
  detectTrickMode a (Some c) =
  let detected := fst (scanTrickMode (hwLayers c)) in
  let c1 := set_hwLayers (snd (scanTrickMode (hwLayers c))) c in
  if eqb detected (mForceCloneMode a)
  then (logCall CallDetectTrickMode a, Some c1)
  else (set_mForceCloneMode detected (logCall CallDetectTrickMode a),
        Some (set_content_flags (Z.lor (content_flags c) HWC_GEOMETRY_CHANGED) c1)).
Proof.
  unfold detectTrickMode. cbn. destruct (scanTrickMode (hwLayers c)) as [d ls]. cbn.
  destruct (eqb d (mForceCloneMode a)); reflexivity.
Qed.

Lemma detectTrickMode_frame (a : DisplayAnalyzer) (list : option hwc_display_contents_1_t) :
  mVideoExtendedMode (fst (detectTrickMode a list)) = mVideoExtendedMode a /\
  mEnableVideoExtendedMode (fst (detectTrickMode a list)) = mEnableVideoExtendedMode a /\
  mBlankDevice (fst (detectTrickMode a list)) = mBlankDevice a /\
  mPendingEvents (fst (detectTrickMode a list)) = mPendingEvents a /\
  mCachedDisplays (fst (detectTrickMode a list)) = mCachedDisplays a /\
  callLog (fst (detectTrickMode a list)) = callLog a ++ [CallDetectTrickMode].
Proof.
  destruct list as [c|]; [|cbn; repeat split; reflexivity].
  rewrite detectTrickMode_eq. cbn.
  destruct (eqb _ _); cbn; repeat split; reflexivity.
Qed.

End DetectorFacts.

(** ** The per-frame pipeline *)

Section Pipeline.
Context `{HwcDefs} `{Collaborators}.

(** [analyzeContents], split at the point where detection starts. *)
Lemma analyzeContents_atDetection (ds : list (option hwc_display_contents_1_t))
    (a : DisplayAnalyzer) :
  analyzeContents ds a =
  let a2 := atDetection ds a in
  let a3 :=
    if mEnableVideoExtendedMode a2 then
      let d := detectVideoExtendedMode a2 in
      if mVideoExtendedMode d then
        match snd (detectTrickMode d (cachedDisplay d DEVICE_PRIMARY)) with
        | None => fst (detectTrickMode d (cachedDisplay d DEVICE_PRIMARY))
        | Some c =>
            set_mCachedDisplays
              (<[DEVICE_PRIMARY := Some c]>
                 (mCachedDisplays (fst (detectTrickMode d (cachedDisplay d DEVICE_PRIMARY)))))
              (fst (detectTrickMode d (cachedDisplay d DEVICE_PRIMARY)))
        end
      else d
    else a2 in
  (set_mCachedDisplays [] a3, mCachedDisplays a3).
Proof.
  unfold analyzeContents, atDetection. cbv zeta.
  destruct (mEnableVideoExtendedMode _); [|reflexivity].
  destruct (mVideoExtendedMode _); [|reflexivity].
  destruct (detectTrickMode _ _) as [t [c|]]; reflexivity.
Qed.

(** What the stages before detection keep, and what they log. *)
Lemma atDetection_frame (ds : list (option hwc_display_contents_1_t)) (a : DisplayAnalyzer) :
  mVideoExtendedMode (atDetection ds a) = mVideoExtendedMode a /\
  mForceCloneMode (atDetection ds a) = mForceCloneMode a /\
  mEnableVideoExtendedMode (atDetection ds a) = mEnableVideoExtendedMode a /\
  mPendingEvents (atDetection ds a) = [] /\
  countActive (mCachedDisplays (atDetection ds a)) = countActive ds /\
  callLog (atDetection ds a) =
    callLog a ++ CallHandlePendingEvents :: flat_map eventTrace (mPendingEvents a)
      ++ (if mBlankDevice (atDetection ds a) then [CallBlankSecondaryDevice] else []).
Proof.
  unfold atDetection.
  destruct (handlePendingEvents_frame (set_mCachedDisplays ds a)) as (Hq & Hv & Hf & He & Hl).
  assert (Hc : countActive (mCachedDisplays (handlePendingEvents (set_mCachedDisplays ds a)))
               = countActive ds).
  { rewrite handlePendingEvents_applyEvents. cbn [mCachedDisplays set_mPendingEvents].
    rewrite applyEvents_countActive. reflexivity. }
  cbn in Hv, Hf, He, Hl.
  destruct (mBlankDevice (handlePendingEvents (set_mCachedDisplays ds a))) eqn:Hb.
  - destruct (blankSecondaryDevice_frame (handlePendingEvents (set_mCachedDisplays ds a)))
      as (Hv' & Hf' & He' & _ & Hb' & Hq' & Hl' & Hs').
    rewrite Hv', Hf', He', Hq', Hl', Hb', Hb, Hv, Hf, He, Hq, Hl.
    rewrite (countActive_slotFlags _ _ Hs'), Hc.
    rewrite <- app_assoc. cbn. repeat split; reflexivity.
  - rewrite Hb, Hv, Hf, He, Hq, Hl, Hc, app_nil_r. repeat split; reflexivity.
Qed.

(** With no blank event pending, the flags of the displays reach the
    detection as the caller passed them. *)
Lemma atDetection_slotFlags (ds : list (option hwc_display_contents_1_t)) (a : DisplayAnalyzer) :
  forallb (fun e => negb (isBlankEvent e)) (mPendingEvents a) = true ->
  slotFlags (mCachedDisplays (atDetection ds a)) = slotFlags ds.
Proof.
  intros Hnb. unfold atDetection.
  assert (Hc : mCachedDisplays (handlePendingEvents (set_mCachedDisplays ds a)) = ds).
  { rewrite handlePendingEvents_applyEvents. cbn [mCachedDisplays set_mPendingEvents].
    apply (applyEvents_no_blank _ (logCall CallHandlePendingEvents (set_mCachedDisplays ds a)))
      in Hnb as [Hc _].
    exact Hc. }
  destruct (mBlankDevice _).
  - destruct (blankSecondaryDevice_frame (handlePendingEvents (set_mCachedDisplays ds a)))
      as (_ & _ & _ & _ & _ & _ & _ & Hs).
    rewrite Hs, Hc. reflexivity.
  - rewrite Hc. reflexivity.
Qed.

Lemma countCall_app (x : Call) (l1 l2 : list Call) :
  countCall x (l1 ++ l2) = (countCall x l1 + countCall x l2)%nat.
Proof. unfold countCall. rewrite List.filter_app, List.length_app. reflexivity. Qed.

Lemma countCall_eventTrace (es : list Event) :
  countCall CallDetectTrickMode (flat_map eventTrace es) = 0%nat.
Proof.
  induction es as [|e es IH]; [reflexivity|].
  cbn [flat_map]. rewrite countCall_app, IH. destruct e; reflexivity.
Qed.

End Pipeline.

(** ** Extended mode over a whole frame *)

Section FrameClaims.
Context `{HwcDefs} `{Collaborators}.

(** C1 (amended): for every [analyzeContents] call made while extended mode
    support is enabled ([mEnableVideoExtendedMode]), if fewer than 2 slots
    of the frame hold a display, then [mVideoExtendedMode] is false after
    the call, whatever it was before, and so is the decision
    [checkVideoExtendedMode] reports. *)
Theorem extended_mode_off_below_two_displays
    (ds : list (option hwc_display_contents_1_t)) (a : DisplayAnalyzer) :
  mEnableVideoExtendedMode a = true ->
  countActive ds < 2 ->
  mVideoExtendedMode (fst (analyzeContents ds a)) = false /\
  checkVideoExtendedMode (fst (analyzeContents ds a)) = false.
Proof.
  intros He Hc.
  destruct (atDetection_frame ds a) as (_ & _ & He2 & _ & Hc2 & _).
  assert (Hoff : mVideoExtendedMode (detectVideoExtendedMode (atDetection ds a)) = false).
  { apply detect_off. right. rewrite Hc2. lia. }
  rewrite analyzeContents_atDetection. cbv zeta.
  rewrite He2, He, Hoff. unfold checkVideoExtendedMode. cbn.
  rewrite Hoff. split; reflexivity.
Qed.

(** C4 (amended): for every [analyzeContents] call in which, when detection
    starts, a video is playing, at least 2 slots hold a display and no
    active display has [HWC_GEOMETRY_CHANGED] set, [mVideoExtendedMode]
    after the call is the value it had before the call. *)
Theorem extended_mode_kept_without_geometry_change
    (ds : list (option hwc_display_contents_1_t)) (a : DisplayAnalyzer) :
  mVideoPlaying (atDetection ds a) = true ->
  2 <= countActive ds ->
  anyGeometryChanged (mCachedDisplays (atDetection ds a)) = false ->
  mVideoExtendedMode (fst (analyzeContents ds a)) = mVideoExtendedMode a.
Proof.
  intros Hp Hc Hg.
  destruct (atDetection_frame ds a) as (Hv & _ & _ & _ & Hc2 & _).
  rewrite analyzeContents_atDetection. cbv zeta.
  destruct (mEnableVideoExtendedMode (atDetection ds a)); [|exact Hv].
  rewrite detect_no_geometry_change; [|assumption|rewrite Hc2; assumption|assumption].
  remember (logCall CallDetectVideoExtendedMode (atDetection ds a)) as d eqn:Ed.
  assert (Hd : mVideoExtendedMode d = mVideoExtendedMode a) by (subst d; exact Hv).
  destruct (mVideoExtendedMode d) eqn:Hvd; [|cbn; congruence].
  destruct (detectTrickMode_frame d (cachedDisplay d DEVICE_PRIMARY)) as (Ht & _).
  destruct (snd (detectTrickMode d (cachedDisplay d DEVICE_PRIMARY))); cbn; congruence.
Qed.

(** The calls of a frame run with extended mode support enabled, as the
    log shows them. *)
Lemma analyzeContents_calls
    (ds : list (option hwc_display_contents_1_t)) (a : DisplayAnalyzer) :
  mEnableVideoExtendedMode a = true ->
  callLog (fst (analyzeContents ds a)) =
    callLog a
      ++ CallHandlePendingEvents :: flat_map eventTrace (mPendingEvents a)
      ++ (if mBlankDevice (fst (analyzeContents ds a))
          then [CallBlankSecondaryDevice] else [])
      ++ CallDetectVideoExtendedMode
         :: (if mVideoExtendedMode (fst (analyzeContents ds a))
             then [CallDetectTrickMode] else []) /\
  mCachedDisplays (fst (analyzeContents ds a)) = [] /\
  mPendingEvents (fst (analyzeContents ds a)) = [].
Proof.
  intros He.
  destruct (atDetection_frame ds a) as (_ & _ & He2 & Hq & _ & Hl).
  destruct (detect_frame (atDetection ds a)) as (_ & Hb3 & _ & Hq3 & _ & Hl3).
  rewrite analyzeContents_atDetection. cbv zeta. rewrite He2, He.
  remember (detectVideoExtendedMode (atDetection ds a)) as d eqn:Ed.
  destruct (mVideoExtendedMode d) eqn:Hvd.
  - destruct (detectTrickMode_frame d (cachedDisplay d DEVICE_PRIMARY))
      as (Hv4 & _ & Hb4 & Hq4 & _ & Hl4).
    destruct (snd (detectTrickMode d (cachedDisplay d DEVICE_PRIMARY))); cbn;
      rewrite Hv4, Hvd, Hb4, Hb3, Hq4, Hq3, Hq, Hl4, Hl3, Hl;
      rewrite <- !app_assoc; cbn; rewrite <- !app_assoc; repeat split; reflexivity.
  - cbn. rewrite Hvd, Hb3, Hq3, Hq, Hl3, Hl.
    rewrite <- !app_assoc; cbn; rewrite <- !app_assoc; repeat split; reflexivity.
Qed.

(** C9 (amended): every [analyzeContents] call made while extended mode
    support is enabled is the composition of these stages, in this order,
    each on the analyzer and the displays the one before left: the display
    array is installed in the cache; [handlePendingEvents] handles the
    pending events, in queue order, on the installed displays;
    [blankSecondaryDevice] runs if the blank flag is set after them;
    [detectVideoExtendedMode] runs; [detectTrickMode] runs last, on the
    primary display, and only if the detection left [mVideoExtendedMode]
    true, its result being written back in the primary slot; the cache is
    released.  The call log shows the calls in that order, and the call
    ends with the cache and the queue empty. *)
Theorem analyzeContents_call_order
    (ds : list (option hwc_display_contents_1_t)) (a : DisplayAnalyzer) :
  mEnableVideoExtendedMode a = true ->
  let installed := set_mCachedDisplays ds a in
  let drained := handlePendingEvents installed in
  let blanked := if mBlankDevice drained then blankSecondaryDevice drained else drained in
  let detected := detectVideoExtendedMode blanked in
  let tricked := detectTrickMode detected (cachedDisplay detected DEVICE_PRIMARY) in
  analyzeContents ds a =
    (if mVideoExtendedMode detected
     then (set_mCachedDisplays [] (fst tricked),
           match snd tricked with
           | Some c => <[DEVICE_PRIMARY := Some c]> (mCachedDisplays detected)
           | None => mCachedDisplays detected
           end)
     else (set_mCachedDisplays [] detected, mCachedDisplays detected)) /\
  callLog (fst (analyzeContents ds a)) =
    callLog a
      ++ CallHandlePendingEvents :: flat_map eventTrace (mPendingEvents a)
      ++ (if mBlankDevice (fst (analyzeContents ds a))
          then [CallBlankSecondaryDevice] else [])
      ++ CallDetectVideoExtendedMode
         :: (if mVideoExtendedMode (fst (analyzeContents ds a))
             then [CallDetectTrickMode] else []) /\
  mVideoExtendedMode (fst (analyzeContents ds a)) = mVideoExtendedMode detected /\
  mCachedDisplays (fst (analyzeContents ds a)) = [] /\
  mPendingEvents (fst (analyzeContents ds a)) = [].
Proof.
  intros He. cbv zeta.
  change (if mBlankDevice (handlePendingEvents (set_mCachedDisplays ds a))
          then blankSecondaryDevice (handlePendingEvents (set_mCachedDisplays ds a))
          else handlePendingEvents (set_mCachedDisplays ds a))
    with (atDetection ds a).
  destruct (analyzeContents_calls ds a He) as (Hlog & Hcache & Hqueue).
  destruct (atDetection_frame ds a) as (_ & _ & He2 & _ & _ & _).
  assert (Hrun : analyzeContents ds a =
    (if mVideoExtendedMode (detectVideoExtendedMode (atDetection ds a))
     then (set_mCachedDisplays []
             (fst (detectTrickMode (detectVideoExtendedMode (atDetection ds a))
                     (cachedDisplay (detectVideoExtendedMode (atDetection ds a))
                        DEVICE_PRIMARY))),
           match snd (detectTrickMode (detectVideoExtendedMode (atDetection ds a))
                        (cachedDisplay (detectVideoExtendedMode (atDetection ds a))
                           DEVICE_PRIMARY)) with
           | Some c => <[DEVICE_PRIMARY := Some c]>
                         (mCachedDisplays (detectVideoExtendedMode (atDetection ds a)))
           | None => mCachedDisplays (detectVideoExtendedMode (atDetection ds a))
           end)
     else (set_mCachedDisplays [] (detectVideoExtendedMode (atDetection ds a)),
           mCachedDisplays (detectVideoExtendedMode (atDetection ds a))))).
  { rewrite analyzeContents_atDetection. cbv zeta. rewrite He2, He.
    remember (detectVideoExtendedMode (atDetection ds a)) as d eqn:Ed.
    destruct (mVideoExtendedMode d); [|reflexivity].
    destruct (detectTrickMode_frame d (cachedDisplay d DEVICE_PRIMARY))
      as (_ & _ & _ & _ & Hc4 & _).
    destruct (snd (detectTrickMode d (cachedDisplay d DEVICE_PRIMARY)));
      cbn [mCachedDisplays set_mCachedDisplays]; rewrite ?Hc4; reflexivity. }
  split; [exact Hrun|]. split; [exact Hlog|]. split; [|split; assumption].
  rewrite Hrun.
  remember (detectVideoExtendedMode (atDetection ds a)) as d eqn:Ed.
  destruct (mVideoExtendedMode d) eqn:Hvd;
    cbn [fst mVideoExtendedMode set_mCachedDisplays]; [|exact Hvd].
  destruct (detectTrickMode_frame d (cachedDisplay d DEVICE_PRIMARY)) as (Hv4 & _).
  rewrite Hv4. exact Hvd.
Qed.

(** C10: for every [analyzeContents] call made while extended mode support
    is enabled, if no video is playing when detection starts, then after
    the call [mVideoExtendedMode] and [mForceCloneMode] are both false,
    whatever the layers carry, and [detectTrickMode] is not called in that
    frame: the only call after the stages before detection is
    [detectVideoExtendedMode], and the displays go back to the caller as
    those stages left them. *)
Theorem stopped_video_clears_both_modes
    (ds : list (option hwc_display_contents_1_t)) (a : DisplayAnalyzer) :
  mEnableVideoExtendedMode a = true ->
  mVideoPlaying (atDetection ds a) = false ->
  mVideoExtendedMode (fst (analyzeContents ds a)) = false /\
  mForceCloneMode (fst (analyzeContents ds a)) = false /\
  callLog (fst (analyzeContents ds a)) =
    callLog (atDetection ds a) ++ [CallDetectVideoExtendedMode] /\
  countCall CallDetectTrickMode (callLog (fst (analyzeContents ds a))) =
    countCall CallDetectTrickMode (callLog a) /\
  snd (analyzeContents ds a) = mCachedDisplays (atDetection ds a).
Proof.
  intros He Hp.
  destruct (atDetection_frame ds a) as (_ & _ & He2 & _ & _ & Hl).
  assert (Hrun : analyzeContents ds a =
                 (set_mCachedDisplays [] (detectVideoExtendedMode (atDetection ds a)),
                  mCachedDisplays (atDetection ds a))).
  { rewrite analyzeContents_atDetection. cbv zeta. rewrite He2, He.
    rewrite detect_not_playing by assumption. reflexivity. }
  rewrite Hrun, detect_not_playing by assumption.
  cbn [fst snd callLog mVideoExtendedMode mForceCloneMode set_mCachedDisplays
       set_mForceCloneMode set_mVideoExtendedMode logCall].
  repeat split.
  rewrite Hl, <- !app_assoc, !countCall_app.
  change (CallHandlePendingEvents :: ?l) with ([CallHandlePendingEvents] ++ l).
  rewrite !countCall_app, countCall_eventTrace.
  destruct (mBlankDevice (atDetection ds a)); cbn; lia.
Qed.

End FrameClaims.

(** ** The detectors and the queue, function by function *)

Section FunctionClaims.
Context `{HwcDefs} `{Collaborators}.



(** How the two queries of extended mode detection answer when they fail:
    a layer whose buffer cannot be locked is not a video layer (and a layer
    list in which no buffer can be locked has no video layer), and a layer
    is not embedded when the mode of the external display is unavailable.
    As the detection engages extended mode on a matched layer that is not
    embedded, a frame whose mode query fails ends with
    [mVideoExtendedMode = true]. *)
Theorem failed_queries_answer_false :
  (forall layer, lockDataBuffer (to_uint32 (handle layer)) = None ->
                 isVideoLayer layer = false) /\
  (forall ls, (forall l, In l ls -> lockDataBuffer (to_uint32 (handle l)) = None) ->
              scanVideoLayer ls = (false, 0)) /\
  (getModeInfo DEVICE_EXTERNAL = None ->
   (forall layer, isVideoEmbedded layer = false) /\
   (forall a content videoHandle layer,
      mVideoPlaying a = true ->
      2 <= countActive (mCachedDisplays a) ->
      anyGeometryChanged (mCachedDisplays a) = true ->
      cachedDisplay a DEVICE_PRIMARY = Some content ->
      scanVideoLayer (excludeTarget (hwLayers content)) = (true, videoHandle) ->
      scanSecondary videoHandle (drop 1 (mCachedDisplays a)) = Some layer ->
      mVideoExtendedMode (detectVideoExtendedMode a) = true)).
Proof.
  assert (Hlock : forall layer, lockDataBuffer (to_uint32 (handle layer)) = None ->
                                isVideoLayer layer = false).
  { intros layer E. unfold isVideoLayer. rewrite E. destruct (handle layer =? 0); reflexivity. }
  split; [exact Hlock|]. split.
  - induction ls as [|l ls IH]; intros Hall; [reflexivity|].
    cbn [scanVideoLayer]. rewrite Hlock by (apply Hall; left; reflexivity).
    apply IH. intros l' Hin. apply Hall. right. exact Hin.
  - intros Hmode.
    assert (Hemb : forall layer, isVideoEmbedded layer = false).
    { intros layer. unfold isVideoEmbedded. rewrite Hmode. reflexivity. }
    split; [exact Hemb|].
    intros a content videoHandle layer Hp Hc Hg Hprim Hv Hs.
    rewrite (detect_matched_layer a content videoHandle layer) by assumption.
    cbn. rewrite Hemb. reflexivity.
Qed.

(** The failure of the buffer lock disables extended mode: a detection that
    sees a geometry change ends with [mVideoExtendedMode = false] when no
    layer before the frame buffer target of the primary display can be
    locked. *)
Lemma failed_buffer_lock_disables_extended_mode (a : DisplayAnalyzer) :
  anyGeometryChanged (mCachedDisplays a) = true ->
  (forall content l,
     cachedDisplay a DEVICE_PRIMARY = Some content ->
     In l (excludeTarget (hwLayers content)) ->
     lockDataBuffer (to_uint32 (handle l)) = None) ->
  mVideoExtendedMode (detectVideoExtendedMode a) = false.
Proof.
  intros Hg Hlock.
  destruct (mVideoPlaying a) eqn:Hp; [|apply detect_off; left; exact Hp].
  destruct (Z.le_gt_cases 2 (countActive (mCachedDisplays a))) as [Hc|Hc];
    [|apply detect_off; right; lia].
  unfold detectVideoExtendedMode. cbn [mVideoPlaying logCall]. rewrite Hp. cbn [negb].
  cbn [mCachedDisplays logCall]. rewrite fold_countDisplay, Z.add_0_l. cbn [orb].
  rewrite Hg. cbn [negb].
  destruct (Z.leb_spec (countActive (mCachedDisplays a)) 1); [lia|].
  change (cachedDisplay (set_mVideoExtendedMode false (logCall CallDetectVideoExtendedMode a)) 0)
    with (cachedDisplay a DEVICE_PRIMARY).
  destruct (cachedDisplay a DEVICE_PRIMARY) as [content|] eqn:Hprim; [|reflexivity].
  destruct failed_queries_answer_false as (_ & Hscan & _).
  rewrite (Hscan (excludeTarget (hwLayers content))); [reflexivity|].
  intros l Hin. apply (Hlock content l eq_refl Hin).
Qed.

(** C3: in every state of the analyzer the decision [checkVideoExtendedMode]
    exposes is [mVideoExtendedMode && !mForceCloneMode]; it is false
    whenever [mForceCloneMode] is true, and in particular after every
    [detectTrickMode] call that finds a trick-mode layer on the display,
    whatever [mVideoExtendedMode] is. *)
Theorem trick_mode_overrides_extended_mode (a : DisplayAnalyzer) :
  checkVideoExtendedMode a = mVideoExtendedMode a && negb (mForceCloneMode a) /\
  (mForceCloneMode a = true -> checkVideoExtendedMode a = false) /\
  (forall c, trickModeFlagged (hwLayers c) = true ->
             mForceCloneMode (fst (detectTrickMode a (Some c))) = true /\
             checkVideoExtendedMode (fst (detectTrickMode a (Some c))) = false).
Proof.
  split; [reflexivity|]. split.
  - intros Hf. unfold checkVideoExtendedMode. rewrite Hf. apply andb_false_r.
  - intros c Ht.
    assert (Hf : mForceCloneMode (fst (detectTrickMode a (Some c))) = true).
    { rewrite detectTrickMode_eq, scanTrickMode_detected, Ht. cbv zeta.
      destruct (mForceCloneMode a) eqn:Hfa; cbn; [exact Hfa | reflexivity]. }
    split; [exact Hf|].
    unfold checkVideoExtendedMode. rewrite Hf. apply andb_false_r.
Qed.

End FunctionClaims.

(** ** Trick mode and blanking *)

Section LayerClaims.
Context `{HwcDefs} `{Collaborators}.

Lemma land_lor_same (x m : Z) : Z.land (Z.lor x m) m = m.
Proof.
  apply Z.bits_inj'. intros n _. rewrite Z.land_spec, Z.lor_spec.
  destruct (Z.testbit x n), (Z.testbit m n); reflexivity.
Qed.

Lemma land_clear_same (x m : Z) : Z.land (Z.land x (Z.lnot m)) m = 0.
Proof.
  apply Z.bits_inj'. intros n Hn.
  rewrite !Z.land_spec, Z.lnot_spec, Z.bits_0 by exact Hn.
  destruct (Z.testbit x n), (Z.testbit m n); reflexivity.
Qed.

(** C6: [detectTrickMode] on a display is edge-triggered.  With [detected]
    the boolean "some layer carries [HWC_TRICK_MODE]": when [detected]
    differs from the stored [mForceCloneMode], the call sets
    [HWC_GEOMETRY_CHANGED] on the display and stores [detected]; when they
    are equal, it leaves the display flags and [mForceCloneMode] as they
    are.  A second call on the display the first one left detects the
    same value and changes neither the display flags nor
    [mForceCloneMode]. *)
Theorem trick_mode_detection_is_edge_triggered
    (a : DisplayAnalyzer) (c : hwc_display_contents_1_t) :
  exists a' c',
    detectTrickMode a (Some c) = (a', Some c') /\
    (trickModeFlagged (hwLayers c) <> mForceCloneMode a ->
     content_flags c' = Z.lor (content_flags c) HWC_GEOMETRY_CHANGED /\
     Z.land (content_flags c') HWC_GEOMETRY_CHANGED = HWC_GEOMETRY_CHANGED /\
     mForceCloneMode a' = trickModeFlagged (hwLayers c)) /\
    (trickModeFlagged (hwLayers c) = mForceCloneMode a ->
     content_flags c' = content_flags c /\
     mForceCloneMode a' = mForceCloneMode a) /\
    trickModeFlagged (hwLayers c') = trickModeFlagged (hwLayers c) /\
    exists a'' c'',
      detectTrickMode a' (Some c') = (a'', Some c'') /\
      content_flags c'' = content_flags c' /\
      mForceCloneMode a'' = mForceCloneMode a'.
Proof.
  assert (Hsame : forall x (d : hwc_display_contents_1_t),
             mForceCloneMode x = trickModeFlagged (hwLayers d) ->
             exists x' d', detectTrickMode x (Some d) = (x', Some d') /\
                           content_flags d' = content_flags d /\
                           mForceCloneMode x' = mForceCloneMode x).
  { intros x d E. rewrite detectTrickMode_eq, scanTrickMode_detected. cbv zeta.
    rewrite <- E, eqb_reflx. eexists _, _. repeat split. }
  pose proof (scanTrickMode_again (hwLayers c)) as Hagain.
  rewrite !scanTrickMode_detected in Hagain.
  rewrite detectTrickMode_eq, scanTrickMode_detected. cbv zeta.
  destruct (eqb (trickModeFlagged (hwLayers c)) (mForceCloneMode a)) eqn:E.
  - apply eqb_prop in E. eexists _, _. split; [reflexivity|].
    split; [intros Hne; contradiction|]. split; [intros _; split; reflexivity|].
    split; [exact Hagain|].
    apply Hsame. transitivity (trickModeFlagged (hwLayers c));
      [symmetry; exact E | symmetry; exact Hagain].
  - apply eqb_false_iff in E. eexists _, _. split; [reflexivity|].
    split; [intros _; cbn; rewrite land_lor_same; repeat split|].
    split; [intros Heq; contradiction|].
    split; [exact Hagain|].
    apply Hsame. transitivity (trickModeFlagged (hwLayers c));
      [reflexivity | symmetry; exact Hagain].
Qed.

Lemma blankLayer_blankedAs (blank : bool) (layer : hwc_layer_1_t) :
  blankedAs blank (blankLayer blank layer).
Proof.
  unfold blankedAs, blankLayer. destruct blank; cbn.
  - rewrite land_lor_same, land_clear_same. repeat split.
  - rewrite land_clear_same. repeat split.
Qed.

(** The slot [i] of the display array after [blankSecondaryDevice]. *)
Lemma blankSecondaryDevice_lookup (a : DisplayAnalyzer) (i : nat) :
  mCachedDisplays (blankSecondaryDevice a) !! i =
  (fun d => if Nat.eqb i DEVICE_PRIMARY then d
            else option_map (blankContent (mBlankDevice a)) d) <$> mCachedDisplays a !! i.
Proof. unfold blankSecondaryDevice. cbn. apply list_lookup_imap. Qed.

Lemma blankContent_lookup (blank : bool) (content : hwc_display_contents_1_t) (j : nat) :
  hwLayers (blankContent blank content) !! j =
  (fun layer => if Z.of_nat j <? Z.of_nat (length (hwLayers content)) - 1
                then blankLayer blank layer else layer) <$> hwLayers content !! j.
Proof. unfold blankContent. cbn. apply list_lookup_imap. Qed.

(** A layer before the frame buffer target on a secondary display is
    rewritten by [blankSecondaryDevice]; the target itself is not. *)
Lemma blankSecondaryDevice_layer (a : DisplayAnalyzer) (i j : nat)
    (content : hwc_display_contents_1_t) (layer : hwc_layer_1_t) :
  i <> DEVICE_PRIMARY ->
  mCachedDisplays a !! i = Some (Some content) ->
  hwLayers content !! j = Some layer ->
  exists content',
    mCachedDisplays (blankSecondaryDevice a) !! i = Some (Some content') /\
    length (hwLayers content') = length (hwLayers content) /\
    content_flags content' = content_flags content /\
    hwLayers content' !! j =
      Some (if Z.of_nat j <? Z.of_nat (length (hwLayers content)) - 1
            then blankLayer (mBlankDevice a) layer else layer).
Proof.
  intros Hi Hd Hl. exists (blankContent (mBlankDevice a) content).
  split.
  - rewrite blankSecondaryDevice_lookup, Hd.
    destruct (Nat.eqb_spec i DEVICE_PRIMARY) as [->|_]; [contradiction|].
    cbn. destruct (Nat.eqb_spec i DEVICE_PRIMARY) as [->|_]; [contradiction | reflexivity].
  - split; [unfold blankContent; cbn; apply length_imap|].
    split; [reflexivity|].
    rewrite blankContent_lookup, Hl. reflexivity.
Qed.

(** C7: blank handling over a populated display array.  Take a layer, not
    the last one, of a non-primary display that holds content.  After
    [blankSecondaryDevice] run with the blank flag set, and after
    [handleBlankEvent true], that layer has the clear-framebuffer hint set,
    the skip flag cleared and composition type [HWC_OVERLAY]; after
    [handleBlankEvent false] (un-blanking) it has the hint cleared and
    composition type [HWC_FRAMEBUFFER].  The last layer of the display, the
    frame buffer target, and the whole primary display are left as they
    were. *)
Theorem blanking_rewrites_secondary_layers
    (a : DisplayAnalyzer) (blank : bool) (i j : nat)
    (content : hwc_display_contents_1_t) (layer target : hwc_layer_1_t) :
  i <> DEVICE_PRIMARY ->
  mCachedDisplays a !! i = Some (Some content) ->
  hwLayers content !! j = Some layer ->
  (j + 1 < length (hwLayers content))%nat ->
  hwLayers content !! (length (hwLayers content) - 1)%nat = Some target ->
  (exists content' layer',
     mCachedDisplays (blankSecondaryDevice a) !! i = Some (Some content') /\
     hwLayers content' !! j = Some layer' /\
     blankedAs (mBlankDevice a) layer' /\
     hwLayers content' !! (length (hwLayers content) - 1)%nat = Some target) /\
  (exists content' layer',
     mCachedDisplays (handleBlankEvent blank a) !! i = Some (Some content') /\
     hwLayers content' !! j = Some layer' /\
     blankedAs blank layer' /\
     hwLayers content' !! (length (hwLayers content) - 1)%nat = Some target) /\
  mBlankDevice (handleBlankEvent blank a) = blank /\
  mCachedDisplays (blankSecondaryDevice a) !! DEVICE_PRIMARY =
    mCachedDisplays a !! DEVICE_PRIMARY /\
  mCachedDisplays (handleBlankEvent blank a) !! DEVICE_PRIMARY =
    mCachedDisplays a !! DEVICE_PRIMARY.
Proof.
  intros Hi Hd Hl Hj Ht.
  assert (Hcase : forall x c, mCachedDisplays x !! i = Some (Some c) ->
             hwLayers c = hwLayers content ->
             exists content' layer',
               mCachedDisplays (blankSecondaryDevice x) !! i = Some (Some content') /\
               hwLayers content' !! j = Some layer' /\
               blankedAs (mBlankDevice x) layer' /\
               hwLayers content' !! (length (hwLayers content) - 1)%nat = Some target).
  { intros x c Hx Hls.
    assert (Hl' : hwLayers c !! j = Some layer) by (rewrite Hls; exact Hl).
    assert (Ht' : hwLayers c !! (length (hwLayers content) - 1)%nat = Some target)
      by (rewrite Hls; exact Ht).
    destruct (blankSecondaryDevice_layer x i j c layer Hi Hx Hl') as (c1 & E1 & _ & _ & L1).
    destruct (blankSecondaryDevice_layer x i _ c target Hi Hx Ht') as (c2 & E2 & _ & _ & L2).
    rewrite E1 in E2. injection E2 as <-.
    rewrite Hls in L1, L2.
    destruct (Z.ltb_spec (Z.of_nat j) (Z.of_nat (length (hwLayers content)) - 1)); [|lia].
    destruct (Z.ltb_spec (Z.of_nat (length (hwLayers content) - 1))
                         (Z.of_nat (length (hwLayers content)) - 1)); [lia|].
    exists c1, (blankLayer (mBlankDevice x) layer).
    split; [exact E1|]. split; [exact L1|]. split; [apply blankLayer_blankedAs | exact L2]. }
  split; [apply (Hcase a content Hd eq_refl)|]. split.
  - unfold handleBlankEvent. cbv zeta.
    match goal with
    | |- context [blankSecondaryDevice ?x] =>
        destruct (Hcase x (set_content_flags
                             (Z.lor (content_flags content) HWC_GEOMETRY_CHANGED) content))
          as (c' & l' & E & L & B & T)
    end.
    + cbn. rewrite list_lookup_imap, Hd. cbn.
      destruct (Nat.eqb_spec i DEVICE_PRIMARY) as [->|_]; [contradiction | reflexivity].
    + reflexivity.
    + exists c', l'. cbn in B. auto.
  - split; [reflexivity|]. split.
    + rewrite blankSecondaryDevice_lookup.
      destruct (mCachedDisplays a !! DEVICE_PRIMARY); reflexivity.
    + unfold handleBlankEvent. cbv zeta. rewrite blankSecondaryDevice_lookup.
      cbn [mCachedDisplays set_mCachedDisplays set_mBlankDevice logCall].
      rewrite list_lookup_imap.
      destruct (mCachedDisplays a !! DEVICE_PRIMARY); reflexivity.
Qed.

End LayerClaims.

(** ** The properties on the concrete platform *)

#[local] Existing Instance Sample.defs.

Ltac evaluate := vm_compute; first [reflexivity | discriminate | intro; discriminate].

(** C1 as stated fails: an analyzer that reached extended mode and then had
    its support switched off through the property keeps
    [mVideoExtendedMode] over a frame with a single display. *)
Lemma extended_mode_survives_single_display_when_disabled :
  let ds := [Some (Sample.primaryVideo 1)] in
  let a' := fst (@analyzeContents Sample.defs (Sample.collab Sample.hd1080) ds
                   Sample.switchedOff) in
  countActive ds < 2 /\
  mVideoExtendedMode a' = true /\
  checkVideoExtendedMode a' = true.
Proof. cbv zeta. repeat split; evaluate. Qed.

Lemma extended_mode_off_below_two_displays_witness :
  let ds := [Some (Sample.primaryVideo 1)] in
  mEnableVideoExtendedMode Sample.extended = true /\
  mVideoExtendedMode Sample.extended = true /\
  countActive ds < 2 /\
  mVideoExtendedMode
    (fst (@analyzeContents Sample.defs (Sample.collab Sample.hd1080) ds Sample.extended))
    = false /\
  checkVideoExtendedMode
    (fst (@analyzeContents Sample.defs (Sample.collab Sample.hd1080) ds Sample.extended))
    = false.
Proof.
  cbv zeta. split; [evaluate|]. split; [evaluate|]. split; [evaluate|].
  apply (@extended_mode_off_below_two_displays Sample.defs (Sample.collab Sample.hd1080));
    evaluate.
Defined.

(** C4 as stated fails: with a single display whose geometry did not
    change, an analyzer in extended mode leaves it. *)
Lemma extended_mode_dropped_without_geometry_change :
  let ds := [Some (Sample.primaryVideo 0)] in
  let a' := fst (@analyzeContents Sample.defs (Sample.collab Sample.hd1080) ds
                   Sample.extended) in
  anyGeometryChanged ds = false /\
  mVideoExtendedMode Sample.extended = true /\
  mVideoExtendedMode a' = false.
Proof. cbv zeta. repeat split; evaluate. Qed.

Lemma extended_mode_kept_without_geometry_change_witness :
  let ds := Sample.twoDisplays 0 1920 1080 in
  mVideoPlaying (atDetection ds Sample.extended) = true /\
  2 <= countActive ds /\
  anyGeometryChanged (mCachedDisplays (atDetection ds Sample.extended)) = false /\
  mVideoExtendedMode
    (fst (@analyzeContents Sample.defs (Sample.collab Sample.hd1080) ds Sample.extended))
    = mVideoExtendedMode Sample.extended.
Proof.
  cbv zeta. split; [evaluate|]. split; [evaluate|]. split; [evaluate|].
  apply (@extended_mode_kept_without_geometry_change Sample.defs
           (Sample.collab Sample.hd1080)); evaluate.
Defined.

(** C9 as stated fails: on a frame whose primary video layer is in trick
    mode, [detectVideoExtendedMode] is called first and [detectTrickMode]
    after it; and on a frame whose trick-mode layer is no video, so that
    extended mode is not engaged, [detectTrickMode] is not called at all. *)
Lemma trick_mode_detection_not_first :
  let a1 := fst (@analyzeContents Sample.defs (Sample.collab Sample.hd1080)
                   Sample.trickVideoFrame Sample.started) in
  let a2 := fst (@analyzeContents Sample.defs (Sample.collab Sample.hd1080)
                   [Some (Sample.primaryTrick 1); Some (Sample.secondaryVideo 1 1920 1080)]
                   Sample.started) in
  mEnableVideoExtendedMode Sample.started = true /\
  callLog a1 = [CallHandlePendingEvents; CallHandleVideoEvent false true;
                CallDetectVideoExtendedMode; CallDetectTrickMode] /\
  precedesb CallDetectTrickMode CallDetectVideoExtendedMode (callLog a1) = false /\
  precedesb CallDetectVideoExtendedMode CallDetectTrickMode (callLog a1) = true /\
  callLog a2 = [CallHandlePendingEvents; CallHandleVideoEvent false true;
                CallDetectVideoExtendedMode] /\
  countCall CallDetectTrickMode (callLog a2) = 0%nat.
Proof. cbv zeta. repeat split; evaluate. Qed.

Lemma analyzeContents_call_order_witness :
  let a := postBlankEvent true Sample.started in
  let r := @analyzeContents Sample.defs (Sample.collab Sample.hd1080)
             (Sample.twoDisplays 0 1920 1080) a in
  mEnableVideoExtendedMode a = true /\
  callLog (fst r) =
    [CallInvalidate; CallHandlePendingEvents; CallHandleVideoEvent false true;
     CallHandleBlankEvent true; CallBlankSecondaryDevice; CallBlankSecondaryDevice;
     CallDetectVideoExtendedMode; CallDetectTrickMode] /\
  slotFlags (snd r) = [Some 0; Some 1] /\
  mVideoExtendedMode (fst r) = true /\
  mCachedDisplays (fst r) = [] /\
  mPendingEvents (fst r) = [].
Proof.
  cbv zeta. split; [evaluate|].
  pose proof (@analyzeContents_call_order Sample.defs (Sample.collab Sample.hd1080)
                (Sample.twoDisplays 0 1920 1080) (postBlankEvent true Sample.started))
    as Horder.
  destruct Horder as (Hrun & Hlog & Hvem & Hcache & Hqueue); [evaluate|].
  split; [rewrite Hlog; evaluate|].
  split; [rewrite Hrun; evaluate|].
  split; [rewrite Hvem; evaluate|]. split; assumption.
Defined.

Lemma stopped_video_clears_both_modes_witness :
  let a := postVideoEvent false false Sample.trickPlaying in
  let a' := fst (@analyzeContents Sample.defs (Sample.collab Sample.hd1080)
                   Sample.trickVideoFrame a) in
  mEnableVideoExtendedMode a = true /\
  mVideoExtendedMode a = true /\
  mForceCloneMode a = true /\
  mVideoPlaying (atDetection Sample.trickVideoFrame a) = false /\
  mVideoExtendedMode a' = false /\
  mForceCloneMode a' = false /\
  countCall CallDetectTrickMode (callLog a') = countCall CallDetectTrickMode (callLog a).
Proof.
  cbv zeta. split; [evaluate|]. split; [evaluate|]. split; [evaluate|]. split; [evaluate|].
  pose proof (@stopped_video_clears_both_modes Sample.defs (Sample.collab Sample.hd1080)
                Sample.trickVideoFrame (postVideoEvent false false Sample.trickPlaying))
    as Hstop.
  destruct Hstop as (Hv & Hf & _ & Hn & _); [evaluate | evaluate |].
  split; [exact Hv|]. split; [exact Hf | exact Hn].
Defined.



(** C8: the code at the failing input.  The claim has a failed query
    disable extended mode for the frame.  The buffer lock does: a frame
    that shows one buffer on both displays, full screen, ends with
    [mVideoExtendedMode = false] when that buffer cannot be locked.  The
    mode query does not: with [getModeInfo] failing, the frame whose video
    is found on the secondary display, in a 640x480 destination, ends with
    [mVideoExtendedMode] set to true and extended mode reported in
    effect. *)
Lemma failed_mode_query_engages_extended_mode :
  let a' := fst (@analyzeContents Sample.defs (Sample.collab None)
                   (Sample.twoDisplays 1 640 480) Sample.playing) in
  let locked := mkContents 1 [Sample.layer 16384 0 1920 1080; Sample.fbTarget] in
  let b' := fst (@analyzeContents Sample.defs (Sample.collab Sample.hd1080)
                   [Some locked; Some locked] Sample.playing) in
  @getModeInfo (Sample.collab None) (@DEVICE_EXTERNAL (Sample.collab None)) = None /\
  mVideoExtendedMode Sample.playing = false /\
  mVideoExtendedMode a' = true /\
  checkVideoExtendedMode a' = true /\
  @lockDataBuffer (Sample.collab Sample.hd1080) (to_uint32 16384) = None /\
  mVideoExtendedMode b' = false.
Proof. cbv zeta. repeat split; evaluate. Qed.

Lemma failed_queries_answer_false_witness :
  let a := set_mCachedDisplays (Sample.twoDisplays 1 640 480) Sample.playing in
  @getModeInfo (Sample.collab None) (@DEVICE_EXTERNAL (Sample.collab None)) = None /\
  @lockDataBuffer (Sample.collab None) (to_uint32 (handle Sample.fbTarget)) = None /\
  @isVideoLayer (Sample.collab None) Sample.fbTarget = false /\
  @isVideoEmbedded (Sample.collab None) (Sample.layer 4096 0 640 480) = false /\
  mVideoExtendedMode (@detectVideoExtendedMode Sample.defs (Sample.collab None) a) = true.
Proof.
  cbv zeta.
  destruct (@failed_queries_answer_false Sample.defs (Sample.collab None))
    as (Hlock & _ & Hmode).
  destruct Hmode as (Hemb & Hext); [evaluate|].
  split; [evaluate|]. split; [evaluate|].
  split; [apply Hlock; evaluate|]. split; [apply Hemb|].
  apply (Hext _ (Sample.primaryVideo 1) 4096 (Sample.layer 4096 0 640 480)); evaluate.
Defined.

Lemma trick_mode_overrides_extended_mode_witness :
  let a := set_mVideoExtendedMode true Sample.playing in
  trickModeFlagged (hwLayers (Sample.primaryTrick 0)) = true /\
  mVideoExtendedMode (fst (detectTrickMode a (Some (Sample.primaryTrick 0)))) = true /\
  checkVideoExtendedMode (fst (detectTrickMode a (Some (Sample.primaryTrick 0)))) = false.
Proof.
  cbv zeta. split; [evaluate|]. split; [evaluate|].
  apply (@trick_mode_overrides_extended_mode Sample.defs
           (set_mVideoExtendedMode true Sample.playing)).
  evaluate.
Defined.

Lemma blanking_rewrites_secondary_layers_witness :
  let a := set_mCachedDisplays (Sample.twoDisplays 0 1920 1080) Sample.playing in
  let content := Sample.secondaryVideo 0 1920 1080 in
  (1%nat <> DEVICE_PRIMARY) /\
  mCachedDisplays a !! 1%nat = Some (Some content) /\
  hwLayers content !! 0%nat = Some (Sample.layer 4096 0 1920 1080) /\
  (0 + 1 < length (hwLayers content))%nat /\
  hwLayers content !! (length (hwLayers content) - 1)%nat = Some Sample.fbTarget /\
  (exists content' layer',
     mCachedDisplays (handleBlankEvent true a) !! 1%nat = Some (Some content') /\
     hwLayers content' !! 0%nat = Some layer' /\
     blankedAs true layer' /\
     hwLayers content' !! (length (hwLayers content) - 1)%nat = Some Sample.fbTarget) /\
  mCachedDisplays (handleBlankEvent true a) !! DEVICE_PRIMARY =
    mCachedDisplays a !! DEVICE_PRIMARY.
Proof.
  cbv zeta. split; [evaluate|]. do 2 (split; [reflexivity|]).
  split; [cbn; lia|]. split; [reflexivity|].
  destruct (@blanking_rewrites_secondary_layers Sample.defs
              (set_mCachedDisplays (Sample.twoDisplays 0 1920 1080) Sample.playing)
              true 1%nat 0%nat (Sample.secondaryVideo 0 1920 1080)
              (Sample.layer 4096 0 1920 1080) Sample.fbTarget)
    as (_ & Hevent & _ & _ & Hprimary);
    [evaluate | reflexivity | reflexivity | cbn; lia | reflexivity |].
  split; [exact Hevent | exact Hprimary].
Defined.

Lemma trick_mode_detection_is_edge_triggered_witness :
  exists a' c',
    detectTrickMode Sample.playing (Some (Sample.primaryTrick 0)) = (a', Some c') /\
    content_flags c' = 1 /\
    mForceCloneMode a' = true /\
    exists a'' c'',
      detectTrickMode a' (Some c') = (a'', Some c'') /\
      content_flags c'' = 1 /\
      mForceCloneMode a'' = true.
Proof.
  destruct (@trick_mode_detection_is_edge_triggered Sample.defs Sample.playing
              (Sample.primaryTrick 0))
    as (a' & c' & E & Hedge & _ & _ & a'' & c'' & E2 & Hflags & Hclone).
  destruct Hedge as (Hset & _ & Hstored); [evaluate|].
  exists a', c'. split; [exact E|]. split; [rewrite Hset; evaluate|].
  split; [rewrite Hstored; evaluate|].
  exists a'', c''. split; [exact E2|].
  split; [rewrite Hflags, Hset; evaluate | rewrite Hclone, Hstored; evaluate].
Defined.

(** * Further properties of the analyzer *)

Section FrameFacts.
Context `{HwcDefs} `{Collaborators}.

Lemma dispatchEvent_flags (e : Event) (a : DisplayAnalyzer) :
  configOf (dispatchEvent e a) = configOf a /\
  mVideoPlaying (dispatchEvent e a) =
    match e with VIDEO_EVENT _ q => q | _ => mVideoPlaying a end /\
  mBlankDevice (dispatchEvent e a) =
    match e with BLANK_EVENT q => q | _ => mBlankDevice a end /\
  mCachedDisplays (dispatchEvent e a) !! DEVICE_PRIMARY =
    mCachedDisplays a !! DEVICE_PRIMARY.
Proof.
  destruct e; cbn; repeat split.
  rewrite !list_lookup_imap. destruct (mCachedDisplays a !! DEVICE_PRIMARY); reflexivity.
Qed.

Lemma applyEvents_flags (es : list Event) (a : DisplayAnalyzer) :
  configOf (applyEvents es a) = configOf a /\
  mVideoPlaying (applyEvents es a) = playingAfter es (mVideoPlaying a) /\
  mBlankDevice (applyEvents es a) = blankAfter es (mBlankDevice a) /\
  mCachedDisplays (applyEvents es a) !! DEVICE_PRIMARY =
    mCachedDisplays a !! DEVICE_PRIMARY.
Proof.
  revert a; induction es as [|e es IH]; intros a; [repeat split|].
  unfold applyEvents, playingAfter, blankAfter in *. cbn [fold_left].
  destruct (IH (dispatchEvent e a)) as (Hc & Hp & Hb & H0').
  destruct (dispatchEvent_flags e a) as (Hc' & Hp' & Hb' & H0'').
  rewrite Hc, Hp, Hb, H0', Hc', Hp', Hb', H0''. repeat split.
Qed.

Lemma maybe_blank_flags (x : DisplayAnalyzer) :
  let y := if mBlankDevice x then blankSecondaryDevice x else x in
  configOf y = configOf x /\
  mVideoPlaying y = mVideoPlaying x /\
  mBlankDevice y = mBlankDevice x /\
  mCachedDisplays y !! DEVICE_PRIMARY = mCachedDisplays x !! DEVICE_PRIMARY.
Proof.
  cbv zeta. destruct (mBlankDevice x) eqn:Hb; [|rewrite Hb; repeat split].
  unfold blankSecondaryDevice. cbn. rewrite list_lookup_imap. repeat split.
  - exact Hb.
  - destruct (mCachedDisplays x !! DEVICE_PRIMARY); reflexivity.
Qed.

(** The stages before detection: what they keep and what the events do. *)
Lemma atDetection_flags (ds : list (option hwc_display_contents_1_t)) (a : DisplayAnalyzer) :
  configOf (atDetection ds a) = configOf a /\
  mVideoPlaying (atDetection ds a) = playingAfter (mPendingEvents a) (mVideoPlaying a) /\
  mBlankDevice (atDetection ds a) = blankAfter (mPendingEvents a) (mBlankDevice a) /\
  mCachedDisplays (atDetection ds a) !! DEVICE_PRIMARY = ds !! DEVICE_PRIMARY.
Proof.
  unfold atDetection. rewrite handlePendingEvents_applyEvents.
  destruct (applyEvents_flags (mPendingEvents (set_mCachedDisplays ds a))
              (logCall CallHandlePendingEvents (set_mCachedDisplays ds a)))
    as (Hc & Hp & Hb & Hprim).
  destruct (maybe_blank_flags
              (set_mPendingEvents []
                 (applyEvents (mPendingEvents (set_mCachedDisplays ds a))
                    (logCall CallHandlePendingEvents (set_mCachedDisplays ds a)))))
    as (Hc' & Hp' & Hb' & Hprim').
  cbv zeta in Hc', Hp', Hb', Hprim'.
  split; [etransitivity; [exact Hc' | exact Hc]|].
  split; [etransitivity; [exact Hp' | exact Hp]|].
  split; [etransitivity; [exact Hb' | exact Hb]|].
  etransitivity; [exact Hprim' | exact Hprim].
Qed.

Lemma detect_config (a : DisplayAnalyzer) :
  configOf (detectVideoExtendedMode a) = configOf a.
Proof.
  unfold detectVideoExtendedMode.
  repeat match goal with
         | |- context [let '(_, _) := ?p in _] => destruct p
         | |- context [if ?b then _ else _] => destruct b
         | |- context [match ?o with Some _ => _ | None => _ end] => destruct o
         end; reflexivity.
Qed.

Lemma detectTrickMode_config (a : DisplayAnalyzer) (list : option hwc_display_contents_1_t) :
  configOf (fst (detectTrickMode a list)) = configOf a /\
  mVideoPlaying (fst (detectTrickMode a list)) = mVideoPlaying a.
Proof.
  destruct list as [c|]; [|split; reflexivity].
  rewrite detectTrickMode_eq. cbv zeta. destruct (eqb _ _); split; reflexivity.
Qed.

(** The analyzer a frame leaves, in terms of the stages. *)
Lemma analyzeContents_state (ds : list (option hwc_display_contents_1_t)) (a : DisplayAnalyzer) :
  let a2 := atDetection ds a in
  let d := detectVideoExtendedMode a2 in
  fst (analyzeContents ds a) =
    set_mCachedDisplays []
      (if mEnableVideoExtendedMode a2
       then if mVideoExtendedMode d
            then fst (detectTrickMode d (cachedDisplay d DEVICE_PRIMARY))
            else d
       else a2).
Proof.
  rewrite analyzeContents_atDetection. cbv zeta.
  destruct (mEnableVideoExtendedMode _); [|reflexivity].
  destruct (mVideoExtendedMode _); [|reflexivity].
  destruct (snd (detectTrickMode _ _)); reflexivity.
Qed.

Lemma analyzeContents_flags (ds : list (option hwc_display_contents_1_t)) (a : DisplayAnalyzer) :
  configOf (fst (analyzeContents ds a)) = configOf a /\
  mVideoPlaying (fst (analyzeContents ds a)) =
    playingAfter (mPendingEvents a) (mVideoPlaying a) /\
  mBlankDevice (fst (analyzeContents ds a)) =
    blankAfter (mPendingEvents a) (mBlankDevice a) /\
  mCachedDisplays (fst (analyzeContents ds a)) = [] /\
  mPendingEvents (fst (analyzeContents ds a)) = [].
Proof.
  rewrite analyzeContents_state. cbv zeta.
  destruct (atDetection_flags ds a) as (Hc & Hp & Hb & _).
  destruct (atDetection_frame ds a) as (_ & _ & _ & Hq & _ & _).
  destruct (detect_frame (atDetection ds a)) as (_ & Hb3 & Hp3 & Hq3 & _ & _).
  pose proof (detect_config (atDetection ds a)) as Hc3.
  remember (detectVideoExtendedMode (atDetection ds a)) as d eqn:Ed.
  destruct (detectTrickMode_frame d (cachedDisplay d DEVICE_PRIMARY))
    as (_ & _ & Hb4 & Hq4 & _ & _).
  destruct (detectTrickMode_config d (cachedDisplay d DEVICE_PRIMARY)) as (Hc4 & Hp4).
  remember (fst (detectTrickMode d (cachedDisplay d DEVICE_PRIMARY))) as t eqn:Et.
  assert (Hall : forall x,
            configOf x = configOf a ->
            mVideoPlaying x = playingAfter (mPendingEvents a) (mVideoPlaying a) ->
            mBlankDevice x = blankAfter (mPendingEvents a) (mBlankDevice a) ->
            mPendingEvents x = [] ->
            configOf (set_mCachedDisplays [] x) = configOf a /\
            mVideoPlaying (set_mCachedDisplays [] x) =
              playingAfter (mPendingEvents a) (mVideoPlaying a) /\
            mBlankDevice (set_mCachedDisplays [] x) =
              blankAfter (mPendingEvents a) (mBlankDevice a) /\
            mCachedDisplays (set_mCachedDisplays [] x) = [] /\
            mPendingEvents (set_mCachedDisplays [] x) = []).
  { intros x H1 H2 H3 H4. repeat split; assumption. }
  destruct (mEnableVideoExtendedMode (atDetection ds a)); [|apply Hall; assumption].
  destruct (mVideoExtendedMode d); apply Hall; congruence.
Qed.

End FrameFacts.

Section IdentityFacts.
Context `{HwcDefs} `{Collaborators}.

Lemma arrayIdentity_imap
    (f : nat -> option hwc_display_contents_1_t -> option hwc_display_contents_1_t)
    (ds : list (option hwc_display_contents_1_t)) :
  (forall i d, option_map (fun c => map layerIdentity (hwLayers c)) (f i d) =
               option_map (fun c => map layerIdentity (hwLayers c)) d) ->
  arrayIdentity (imap f ds) = arrayIdentity ds.
Proof.
  revert f; induction ds as [|d ds IH]; intros f Hf; [reflexivity|].
  cbn [imap arrayIdentity map]. rewrite Hf. f_equal.
  apply IH. intros; unfold compose; apply Hf.
Qed.

Lemma layerIdentity_imap (g : nat -> hwc_layer_1_t -> hwc_layer_1_t)
    (ls : list hwc_layer_1_t) :
  (forall j l, layerIdentity (g j l) = layerIdentity l) ->
  map layerIdentity (imap g ls) = map layerIdentity ls.
Proof.
  revert g; induction ls as [|l ls IH]; intros g Hg; [reflexivity|].
  cbn [imap map]. rewrite Hg. f_equal. apply IH. intros; unfold compose; apply Hg.
Qed.

Lemma blankContent_identity (blank : bool) (c : hwc_display_contents_1_t) :
  map layerIdentity (hwLayers (blankContent blank c)) = map layerIdentity (hwLayers c).
Proof.
  unfold blankContent. cbn [hwLayers set_hwLayers]. apply layerIdentity_imap.
  intros j l. destruct (_ <? _); [|reflexivity]. destruct blank; reflexivity.
Qed.

Lemma blankSecondaryDevice_identity (a : DisplayAnalyzer) :
  arrayIdentity (mCachedDisplays (blankSecondaryDevice a)) = arrayIdentity (mCachedDisplays a).
Proof.
  unfold blankSecondaryDevice. cbn [mCachedDisplays set_mCachedDisplays logCall].
  apply arrayIdentity_imap. intros i d.
  destruct (Nat.eqb i DEVICE_PRIMARY); [reflexivity|].
  destruct d as [c|]; [|reflexivity]. cbn [option_map]. f_equal.
  apply blankContent_identity.
Qed.

Lemma dispatchEvent_identity (e : Event) (a : DisplayAnalyzer) :
  arrayIdentity (mCachedDisplays (dispatchEvent e a)) = arrayIdentity (mCachedDisplays a).
Proof.
  destruct e; try reflexivity.
  unfold dispatchEvent, handleBlankEvent. cbv zeta.
  rewrite blankSecondaryDevice_identity.
  cbn [mCachedDisplays set_mCachedDisplays set_mBlankDevice logCall].
  apply arrayIdentity_imap. intros i d.
  destruct (Nat.eqb i DEVICE_PRIMARY); [reflexivity|]. destruct d; reflexivity.
Qed.

Lemma applyEvents_identity (es : list Event) (a : DisplayAnalyzer) :
  arrayIdentity (mCachedDisplays (applyEvents es a)) = arrayIdentity (mCachedDisplays a).
Proof.
  revert a; induction es as [|e es IH]; intros a; [reflexivity|].
  unfold applyEvents in *. cbn [fold_left]. rewrite IH. apply dispatchEvent_identity.
Qed.

Lemma atDetection_identity (ds : list (option hwc_display_contents_1_t)) (a : DisplayAnalyzer) :
  arrayIdentity (mCachedDisplays (atDetection ds a)) = arrayIdentity ds.
Proof.
  unfold atDetection. rewrite handlePendingEvents_applyEvents.
  assert (Hev : arrayIdentity
                  (mCachedDisplays
                     (set_mPendingEvents []
                        (applyEvents (mPendingEvents (set_mCachedDisplays ds a))
                           (logCall CallHandlePendingEvents (set_mCachedDisplays ds a)))))
                = arrayIdentity ds).
  { cbn [mCachedDisplays set_mPendingEvents]. rewrite applyEvents_identity. reflexivity. }
  destruct (mBlankDevice _); [rewrite blankSecondaryDevice_identity|]; exact Hev.
Qed.

Lemma scanTrickMode_reset (ls : list hwc_layer_1_t) :
  snd (scanTrickMode ls) = resetFirstTrickLayer ls.
Proof.
  induction ls as [|l ls IH]; [reflexivity|]. cbn [scanTrickMode resetFirstTrickLayer].
  destruct (testFlag (flags l) HWC_TRICK_MODE); [reflexivity|].
  destruct (scanTrickMode ls) as [d r]. cbn in *. rewrite IH. reflexivity.
Qed.

Lemma resetFirstTrickLayer_identity (ls : list hwc_layer_1_t) :
  map layerIdentity (resetFirstTrickLayer ls) = map layerIdentity ls.
Proof.
  induction ls as [|l ls IH]; [reflexivity|]. cbn [resetFirstTrickLayer].
  destruct (testFlag (flags l) HWC_TRICK_MODE); [reflexivity|].
  cbn [map]. rewrite IH. reflexivity.
Qed.

(** The contents [detectTrickMode] leaves behind its pointer. *)
Lemma detectTrickMode_content (a : DisplayAnalyzer) (c : hwc_display_contents_1_t) :
  exists c', snd (detectTrickMode a (Some c)) = Some c' /\
             hwLayers c' = resetFirstTrickLayer (hwLayers c).
Proof.
  rewrite detectTrickMode_eq. cbv zeta. rewrite scanTrickMode_reset.
  destruct (eqb _ _); eexists; split; reflexivity.
Qed.

Lemma arrayIdentity_insert (ds : list (option hwc_display_contents_1_t)) (i : nat)
    (c c' : hwc_display_contents_1_t) :
  ds !! i = Some (Some c) ->
  map layerIdentity (hwLayers c') = map layerIdentity (hwLayers c) ->
  arrayIdentity (<[i := Some c']> ds) = arrayIdentity ds.
Proof.
  revert i; induction ds as [|d ds IH]; intros [|i] Hd Hid; try discriminate Hd.
  - cbn in Hd. injection Hd as ->. cbn. rewrite Hid. reflexivity.
  - cbn in Hd. cbn. f_equal. apply IH; assumption.
Qed.

(** The display array a frame hands back, in terms of the stages. *)
Lemma analyzeContents_displays (ds : list (option hwc_display_contents_1_t))
    (a : DisplayAnalyzer) :
  let a2 := atDetection ds a in
  let d := detectVideoExtendedMode a2 in
  snd (analyzeContents ds a) =
    if mEnableVideoExtendedMode a2 && mVideoExtendedMode d
    then match snd (detectTrickMode d (cachedDisplay d DEVICE_PRIMARY)) with
         | Some c => <[DEVICE_PRIMARY := Some c]> (mCachedDisplays a2)
         | None => mCachedDisplays a2
         end
    else mCachedDisplays a2.
Proof.
  rewrite analyzeContents_atDetection. cbv zeta.
  destruct (detect_frame (atDetection ds a)) as (_ & _ & _ & _ & Hc & _).
  destruct (mEnableVideoExtendedMode _); [|reflexivity].
  destruct (mVideoExtendedMode _) eqn:Hv; cbn [andb snd]; [|exact Hc].
  destruct (detectTrickMode_frame (detectVideoExtendedMode (atDetection ds a))
              (cachedDisplay (detectVideoExtendedMode (atDetection ds a)) DEVICE_PRIMARY))
    as (_ & _ & _ & _ & Hc4 & _).
  destruct (snd (detectTrickMode _ _)); cbn [mCachedDisplays set_mCachedDisplays];
    rewrite ?Hc4, Hc; reflexivity.
Qed.

End IdentityFacts.

Section AnalyzerProperties.
Context `{HwcDefs} `{Collaborators}.

(** X1: [analyzeContents] never adds, removes or reorders a display or a
    layer, and never writes a layer's buffer handle, transform, source crop
    or display frame: the array it hands back has the identity of the array
    it was given. *)
Theorem analyzeContents_keeps_layer_identity
    (ds : list (option hwc_display_contents_1_t)) (a : DisplayAnalyzer) :
  arrayIdentity (snd (analyzeContents ds a)) = arrayIdentity ds /\
  length (snd (analyzeContents ds a)) = length ds.
Proof.
  assert (Hid : arrayIdentity (snd (analyzeContents ds a)) = arrayIdentity ds).
  { rewrite analyzeContents_displays. cbv zeta.
    pose proof (atDetection_identity ds a) as Hat.
    destruct (detect_frame (atDetection ds a)) as (_ & _ & _ & _ & Hc & _).
    destruct (_ && _); [|exact Hat].
    unfold cachedDisplay. rewrite Hc.
    destruct (mCachedDisplays (atDetection ds a) !! DEVICE_PRIMARY) as [[c|]|] eqn:Hprim;
      cbn [mjoin option_ret option_bind option_join]; try exact Hat.
    destruct (detectTrickMode_content (detectVideoExtendedMode (atDetection ds a)) c)
      as (c' & -> & Hls).
    rewrite (arrayIdentity_insert _ _ c c' Hprim); [exact Hat|].
    rewrite Hls. apply resetFirstTrickLayer_identity. }
  split; [exact Hid|].
  apply (f_equal (@length _)) in Hid. unfold arrayIdentity in Hid.
  rewrite !length_map in Hid. exact Hid.
Qed.

(** X2: a frame writes the primary display only through trick mode
    detection: when extended mode support is disabled, or when the frame
    ends with [mVideoExtendedMode] false, the primary display is handed
    back exactly as it was passed. *)
Theorem primary_display_untouched_without_extended_mode
    (ds : list (option hwc_display_contents_1_t)) (a : DisplayAnalyzer) :
  mEnableVideoExtendedMode a = false \/
  mVideoExtendedMode (fst (analyzeContents ds a)) = false ->
  snd (analyzeContents ds a) !! DEVICE_PRIMARY = ds !! DEVICE_PRIMARY.
Proof.
  intros Hoff.
  destruct (atDetection_flags ds a) as (Hc & _ & _ & Hprim).
  assert (He : mEnableVideoExtendedMode (atDetection ds a) = mEnableVideoExtendedMode a).
  { unfold configOf in Hc. congruence. }
  rewrite analyzeContents_displays. cbv zeta. rewrite He.
  destruct (mEnableVideoExtendedMode a) eqn:Hen; [|exact Hprim].
  destruct Hoff as [Hf | Hv]; [discriminate Hf|].
  rewrite analyzeContents_state in Hv. cbv zeta in Hv. rewrite He in Hv.
  destruct (mVideoExtendedMode (detectVideoExtendedMode (atDetection ds a))) eqn:Hd;
    [|exact Hprim].
  destruct (detectTrickMode_frame (detectVideoExtendedMode (atDetection ds a))
              (cachedDisplay (detectVideoExtendedMode (atDetection ds a)) DEVICE_PRIMARY))
    as (Hv4 & _).
  cbn in Hv. rewrite Hv4, Hd in Hv. discriminate Hv.
Qed.

(** X3: when a frame ends with the blank flag set, every layer but the
    last of every non-primary display it hands back has the
    clear-framebuffer hint set, the skip flag cleared and composition type
    [HWC_OVERLAY]. *)
Theorem secondary_layers_blanked_after_frame
    (ds : list (option hwc_display_contents_1_t)) (a : DisplayAnalyzer)
    (i j : nat) (content : hwc_display_contents_1_t) (layer : hwc_layer_1_t) :
  mBlankDevice (fst (analyzeContents ds a)) = true ->
  i <> DEVICE_PRIMARY ->
  snd (analyzeContents ds a) !! i = Some (Some content) ->
  hwLayers content !! j = Some layer ->
  (j + 1 < length (hwLayers content))%nat ->
  blankedAs true layer.
Proof.
  intros Hblank Hi Hd Hl Hj.
  assert (Hb2 : mBlankDevice (atDetection ds a) = true).
  { destruct (analyzeContents_flags ds a) as (_ & _ & Hb & _).
    destruct (atDetection_flags ds a) as (_ & _ & Hb' & _). congruence. }
  assert (Hslot : mCachedDisplays (atDetection ds a) !! i = Some (Some content)).
  { rewrite analyzeContents_displays in Hd. cbv zeta in Hd.
    destruct (_ && _); [|exact Hd].
    destruct (snd (detectTrickMode _ _)); [|exact Hd].
    rewrite list_lookup_insert_ne in Hd by (intros E; apply Hi; symmetry; exact E).
    exact Hd. }
  unfold atDetection in Hb2, Hslot.
  remember (handlePendingEvents (set_mCachedDisplays ds a)) as a1 eqn:E1.
  destruct (mBlankDevice a1) eqn:Hb1.
  - rewrite blankSecondaryDevice_lookup, Hb1 in Hslot.
    destruct (mCachedDisplays a1 !! i) as [d0|]; [|discriminate Hslot].
    cbn in Hslot. destruct (Nat.eqb_spec i DEVICE_PRIMARY) as [E|_]; [contradiction|].
    destruct d0 as [c0|]; [|discriminate Hslot].
    cbn in Hslot. injection Hslot as <-.
    rewrite blankContent_lookup in Hl.
    assert (Hlen : length (hwLayers (blankContent true c0)) = length (hwLayers c0))
      by (unfold blankContent; cbn; apply length_imap).
    rewrite Hlen in Hj.
    destruct (hwLayers c0 !! j) as [l0|]; [|discriminate Hl]. cbn in Hl.
    destruct (Z.ltb_spec (Z.of_nat j) (Z.of_nat (length (hwLayers c0)) - 1)); [|lia].
    injection Hl as <-. exact (blankLayer_blankedAs true l0).
  - rewrite Hb1 in Hb2. discriminate Hb2.
Qed.

(** X4: a frame leaves [mVideoPlaying] and [mBlankDevice] at the values of
    the last video event and the last blank event that were pending, and
    unchanged when none was; it releases the display cache, empties the
    queue, and never writes [mInitialized], [mEnableVideoExtendedMode],
    [mVideoPreparing] or [mOverlayAllowed]. *)
Theorem frame_applies_last_event_of_each_kind
    (ds : list (option hwc_display_contents_1_t)) (a : DisplayAnalyzer) :
  isVideoPlaying (fst (analyzeContents ds a)) =
    playingAfter (mPendingEvents a) (mVideoPlaying a) /\
  mBlankDevice (fst (analyzeContents ds a)) =
    blankAfter (mPendingEvents a) (mBlankDevice a) /\
  (forall es p q es',
     mPendingEvents a = es ++ VIDEO_EVENT p q :: es' ->
     forallb (fun e => match e with VIDEO_EVENT _ _ => false | _ => true end) es' = true ->
     isVideoPlaying (fst (analyzeContents ds a)) = q) /\
  mCachedDisplays (fst (analyzeContents ds a)) = [] /\
  mPendingEvents (fst (analyzeContents ds a)) = [] /\
  configOf (fst (analyzeContents ds a)) = configOf a.
Proof.
  destruct (analyzeContents_flags ds a) as (Hc & Hp & Hb & Hcache & Hq).
  unfold isVideoPlaying. repeat split; try assumption.
  intros es p q es' Hes Hnv. rewrite Hp, Hes.
  unfold playingAfter. rewrite fold_left_app. cbn [fold_left].
  clear -Hnv. induction es' as [|e es' IH]; [reflexivity|].
  cbn in Hnv. apply andb_true_iff in Hnv as [He Hes'].
  destruct e; try discriminate He; cbn [fold_left]; apply IH; exact Hes'.
Qed.

End AnalyzerProperties.

Section InterfaceProperties.
Context `{HwcDefs} `{Collaborators}.


Lemma countCall_reset_eventTrace (es : list Event) :
  countCall CallResetVsyncSource (flat_map eventTrace es) =
  length (List.filter isHotplugEvent es).
Proof.
  induction es as [|e es IH]; [reflexivity|].
  cbn [flat_map]. rewrite countCall_app, IH. destruct e; reflexivity.
Qed.


Lemma serve_pending_no_disconnect (r : Request) (a : DisplayAnalyzer) :
  Forall (fun e => e <> HOTPLUG_EVENT false) (mPendingEvents a) ->
  Forall (fun e => e <> HOTPLUG_EVENT false) (mPendingEvents (serve r a)).
Proof.
  intros Hq. destruct r as [p| |ds|p|connected|preparing playing|blank]; cbn [serve].
  - cbn. constructor.
  - cbn. constructor.
  - destruct (analyzeContents_flags ds a) as (_ & _ & _ & _ & ->). constructor.
  - unfold isVideoExtendedModeEnabled, readEnableProperty. cbn.
    destruct (0 <? prop_len p); exact Hq.
  - destruct connected; cbn; [|exact Hq].
    apply Forall_app. split; [exact Hq|]. repeat constructor. discriminate.
  - cbn. apply Forall_app. split; [exact Hq|]. repeat constructor. discriminate.
  - cbn. apply Forall_app. split; [exact Hq|]. repeat constructor. discriminate.
Qed.

(** X6: a disconnect is never queued.  Whatever calls are made on the
    analyzer, in whatever order, the queue never holds a hot-plug event
    with [connected = false] if it held none before. *)
Theorem disconnect_is_never_queued (rs : list Request) (a : DisplayAnalyzer) :
  Forall (fun e => e <> HOTPLUG_EVENT false) (mPendingEvents a) ->
  Forall (fun e => e <> HOTPLUG_EVENT false) (mPendingEvents (serveAll rs a)).
Proof.
  revert a; induction rs as [|r rs IH]; intros a Hq; [exact Hq|].
  unfold serveAll in *. cbn [fold_left]. apply IH, serve_pending_no_disconnect, Hq.
Qed.

Lemma serve_overlay (r : Request) (a : DisplayAnalyzer) :
  mOverlayAllowed a = true /\ mVideoPreparing a = false ->
  mOverlayAllowed (serve r a) = true /\ mVideoPreparing (serve r a) = false.
Proof.
  intros [Ho Hp]. destruct r as [p| |ds|p|connected|preparing playing|blank]; cbn [serve].
  - split; reflexivity.
  - split; assumption.
  - destruct (analyzeContents_flags ds a) as (Hc & _). unfold configOf in Hc.
    split; congruence.
  - unfold isVideoExtendedModeEnabled, readEnableProperty. cbn.
    destruct (0 <? prop_len p); split; assumption.
  - destruct connected; split; assumption.
  - split; assumption.
  - split; assumption.
Qed.

(** X7: overlay use is always allowed.  The transition on [preparing] being
    compiled out, no call on the analyzer, a video event with
    [preparing = true] included, ever makes [isOverlayAllowed] false or
    [mVideoPreparing] true. *)
Theorem overlay_is_always_allowed (rs : list Request) (a : DisplayAnalyzer) :
  mOverlayAllowed a = true ->
  mVideoPreparing a = false ->
  isOverlayAllowed (serveAll rs a) = true /\ mVideoPreparing (serveAll rs a) = false.
Proof.
  intros Ho Hp. unfold isOverlayAllowed.
  assert (Hboth : mOverlayAllowed a = true /\ mVideoPreparing a = false) by (split; assumption).
  clear Ho Hp. revert a Hboth; induction rs as [|r rs IH]; intros a Hboth; [exact Hboth|].
  unfold serveAll in *. cbn [fold_left]. apply IH, serve_overlay, Hboth.
Qed.

(** X8: [initialize] starts from scratch.  Events posted before it are
    dropped, and the first frame after it, with no event posted in between,
    handles no event, calls neither [blankSecondaryDevice] nor
    [detectTrickMode], ends with all four mode flags false and hands the
    displays back exactly as they were passed. *)
Theorem first_frame_after_initialize
    (p : PropertyRead) (ds : list (option hwc_display_contents_1_t)) (a : DisplayAnalyzer) :
  let r := analyzeContents ds (initialize p a) in
  snd r = ds /\
  mVideoExtendedMode (fst r) = false /\
  mForceCloneMode (fst r) = false /\
  mBlankDevice (fst r) = false /\
  mVideoPlaying (fst r) = false /\
  handledEvents (callLog (fst r)) = handledEvents (callLog a) /\
  countCall CallBlankSecondaryDevice (callLog (fst r)) =
    countCall CallBlankSecondaryDevice (callLog a) /\
  countCall CallDetectTrickMode (callLog (fst r)) =
    countCall CallDetectTrickMode (callLog a).
Proof.
  cbv zeta.
  assert (Hrun : forall en l,
            analyzeContents ds (mkAnalyzer true en false false false false false true [] [] l) =
            (mkAnalyzer true en false false false false false true [] []
               (l ++ CallHandlePendingEvents
                     :: (if en then [CallDetectVideoExtendedMode] else [])), ds)).
  { intros [|] l; cbv -[app]; rewrite <- ?app_assoc; reflexivity. }
  assert (Hl : callLog (readEnableProperty p a) = callLog a).
  { unfold readEnableProperty. destruct (0 <? prop_len p); reflexivity. }
  unfold initialize. rewrite Hrun, Hl.
  cbn [fst snd mVideoExtendedMode mForceCloneMode mBlankDevice mVideoPlaying callLog].
  rewrite handledEvents_app, !countCall_app.
  destruct (mEnableVideoExtendedMode (readEnableProperty p a)); cbn;
    rewrite ?app_nil_r; repeat split; lia.
Qed.

End InterfaceProperties.

Section DetectionProperties.
Context `{HwcDefs} `{Collaborators}.

(** A layer the scans pick lies before the frame buffer target. *)
Lemma excludeTarget_lookup (ls : list hwc_layer_1_t) (l : hwc_layer_1_t) :
  In l (excludeTarget ls) ->
  exists j, ls !! j = Some l /\ (j + 1 < length ls)%nat.
Proof.
  intros Hin. apply list_elem_of_In, list_elem_of_lookup in Hin as [j Hj].
  unfold excludeTarget in Hj. apply lookup_take_Some in Hj as [Hj Hlt].
  exists j. split; [exact Hj | lia].
Qed.

Lemma scanVideoLayer_found (ls : list hwc_layer_1_t) (h : Z) :
  scanVideoLayer ls = (true, h) ->
  exists lv, In lv ls /\ isVideoLayer lv = true /\ h = to_uint32 (handle lv).
Proof.
  induction ls as [|l ls IH]; [discriminate|]. cbn [scanVideoLayer].
  destruct (isVideoLayer l) eqn:Hv.
  - intros E. injection E as <-. exists l. repeat split; [left; reflexivity | exact Hv].
  - intros E. destruct (IH E) as (lv & Hin & Hlv & Hh).
    exists lv. repeat split; [right; exact Hin | exact Hlv | exact Hh].
Qed.

Lemma scanHandle_found (h : Z) (ls : list hwc_layer_1_t) (l : hwc_layer_1_t) :
  scanHandle h ls = Some l -> In l ls /\ to_uint32 (handle l) = h.
Proof.
  induction ls as [|x ls IH]; [discriminate|]. cbn [scanHandle].
  destruct (Z.eqb_spec (to_uint32 (handle x)) h) as [E|_].
  - intros E'. injection E' as <-. split; [left; reflexivity | exact E].
  - intros E'. destruct (IH E') as [Hin Hh]. split; [right; exact Hin | exact Hh].
Qed.

Lemma scanSecondary_found (h : Z) (ds : list (option hwc_display_contents_1_t))
    (l : hwc_layer_1_t) :
  scanSecondary h ds = Some l ->
  exists k c, ds !! k = Some (Some c) /\ In l (excludeTarget (hwLayers c)) /\
              to_uint32 (handle l) = h.
Proof.
  induction ds as [|d ds IH]; [discriminate|]. cbn [scanSecondary].
  destruct d as [c|].
  - destruct (scanHandle h (excludeTarget (hwLayers c))) as [l'|] eqn:Hs.
    + intros E. injection E as ->. apply scanHandle_found in Hs as [Hin Hh].
      exists 0%nat, c. repeat split; assumption.
    + intros E. destruct (IH E) as (k & c' & Hk & Hin & Hh).
      exists (S k), c'. repeat split; assumption.
  - intros E. destruct (IH E) as (k & c' & Hk & Hin & Hh).
    exists (S k), c'. repeat split; assumption.
Qed.

(** X9: extended mode is switched on only by a frame that shows the video
    on a secondary display.  If [detectVideoExtendedMode] turns
    [mVideoExtendedMode] from false to true, then a video is playing, at
    least two displays are active, one of them changed geometry, a layer
    of the primary display that is not its last is a video layer, and a
    layer that is not the last of a display in a slot from 1 on has the
    same buffer handle and is not embedded. *)
Theorem extended_mode_needs_video_on_secondary_display (a : DisplayAnalyzer) :
  mVideoExtendedMode a = false ->
  mVideoExtendedMode (detectVideoExtendedMode a) = true ->
  mVideoPlaying a = true /\
  2 <= countActive (mCachedDisplays a) /\
  anyGeometryChanged (mCachedDisplays a) = true /\
  exists primary j video i secondary k layer,
    mCachedDisplays a !! DEVICE_PRIMARY = Some (Some primary) /\
    hwLayers primary !! j = Some video /\ (j + 1 < length (hwLayers primary))%nat /\
    isVideoLayer video = true /\
    (1 <= i)%nat /\
    mCachedDisplays a !! i = Some (Some secondary) /\
    hwLayers secondary !! k = Some layer /\ (k + 1 < length (hwLayers secondary))%nat /\
    to_uint32 (handle layer) = to_uint32 (handle video) /\
    isVideoEmbedded layer = false.
Proof.
  intros Hoff Hon.
  destruct (mVideoPlaying a) eqn:Hp;
    [|rewrite detect_not_playing in Hon by exact Hp; discriminate Hon].
  destruct (Z.le_gt_cases 2 (countActive (mCachedDisplays a))) as [Hc|Hc];
    [|rewrite detect_single_display in Hon by (try exact Hp; lia); discriminate Hon].
  destruct (anyGeometryChanged (mCachedDisplays a)) eqn:Hg;
    [|rewrite detect_no_geometry_change in Hon by assumption;
      cbn in Hon; rewrite Hoff in Hon; discriminate Hon].
  split; [reflexivity|]. split; [exact Hc|]. split; [reflexivity|].
  unfold detectVideoExtendedMode in Hon.
  cbn [mVideoPlaying logCall] in Hon. rewrite Hp in Hon. cbn [negb] in Hon.
  cbn [mCachedDisplays logCall] in Hon.
  rewrite fold_countDisplay, Z.add_0_l in Hon. cbn [orb] in Hon.
  rewrite Hg in Hon. cbn [negb] in Hon.
  destruct (Z.leb_spec (countActive (mCachedDisplays a)) 1); [lia|].
  unfold cachedDisplay in Hon. cbn [mCachedDisplays set_mVideoExtendedMode logCall] in Hon.
  destruct (mCachedDisplays a !! 0%nat) as [[primary|]|] eqn:Hprim;
    cbn [mjoin option_join option_bind option_ret] in Hon; try discriminate Hon.
  destruct (scanVideoLayer (excludeTarget (hwLayers primary))) as [[|] h] eqn:Hscan;
    cbn [negb] in Hon; [|discriminate Hon].
  destruct (scanSecondary h (drop 1 (mCachedDisplays a))) as [layer|] eqn:Hsec;
    [|discriminate Hon].
  destruct (isVideoEmbedded layer) eqn:Hemb; [discriminate Hon|].
  apply scanVideoLayer_found in Hscan as (video & Hin & Hvideo & ->).
  apply excludeTarget_lookup in Hin as (j & Hj & Hjlt).
  apply scanSecondary_found in Hsec as (i & secondary & Hi & Hin & Hh).
  apply excludeTarget_lookup in Hin as (k & Hk & Hklt).
  rewrite lookup_drop in Hi.
  exists primary, j, video, (1 + i)%nat, secondary, k, layer.
  repeat split; try assumption. lia.
Qed.

(** X10: [detectTrickMode] resets the composition type of the first layer
    that carries [HWC_TRICK_MODE], the frame buffer target included, to
    [HWC_FRAMEBUFFER] and writes no other layer: not the layers before it,
    and not the layers after it, trick mode or not.  With no such layer it
    writes no layer at all. *)
Theorem trick_mode_resets_first_flagged_layer_only
    (a : DisplayAnalyzer) (c : hwc_display_contents_1_t) :
  exists c',
    snd (detectTrickMode a (Some c)) = Some c' /\
    length (hwLayers c') = length (hwLayers c) /\
    (trickModeFlagged (hwLayers c) = false -> hwLayers c' = hwLayers c) /\
    (forall before layer after,
       hwLayers c = before ++ layer :: after ->
       trickModeFlagged before = false ->
       testFlag (flags layer) HWC_TRICK_MODE = true ->
       hwLayers c' = before ++ set_compositionType HWC_FRAMEBUFFER layer :: after).
Proof.
  destruct (detectTrickMode_content a c) as (c' & Hc' & Hls).
  exists c'. split; [exact Hc'|]. rewrite Hls. clear.
  generalize (hwLayers c) as ls. intros ls. split; [|split].
  - induction ls as [|l ls IH]; [reflexivity|]. cbn [resetFirstTrickLayer].
    destruct (testFlag _ _); cbn; [reflexivity | rewrite IH; reflexivity].
  - unfold trickModeFlagged. induction ls as [|l ls IH]; [reflexivity|].
    cbn [existsb resetFirstTrickLayer]. destruct (testFlag _ _); [discriminate|].
    intros Hf. rewrite IH by exact Hf. reflexivity.
  - intros before layer after -> Hb Ht. unfold trickModeFlagged in Hb.
    induction before as [|b before IH]; cbn [app resetFirstTrickLayer].
    + rewrite Ht. reflexivity.
    + cbn [existsb] in Hb. apply orb_false_iff in Hb as [Hb1 Hb2].
      rewrite Hb1, (IH Hb2). reflexivity.
Qed.

(** X11: with extended mode support disabled a frame runs no detector: it
    leaves [mVideoExtendedMode] and [mForceCloneMode] as they are, whatever
    the displays show and whether or not a video plays, and it calls
    neither [detectVideoExtendedMode] nor [detectTrickMode].  If,
    moreover, no event is pending and the blank flag is off, the displays
    are handed back exactly as they were passed. *)
Theorem disabled_support_freezes_modes
    (ds : list (option hwc_display_contents_1_t)) (a : DisplayAnalyzer) :
  mEnableVideoExtendedMode a = false ->
  mVideoExtendedMode (fst (analyzeContents ds a)) = mVideoExtendedMode a /\
  mForceCloneMode (fst (analyzeContents ds a)) = mForceCloneMode a /\
  checkVideoExtendedMode (fst (analyzeContents ds a)) = checkVideoExtendedMode a /\
  callLog (fst (analyzeContents ds a)) = callLog (atDetection ds a) /\
  countCall CallDetectVideoExtendedMode (callLog (fst (analyzeContents ds a))) =
    countCall CallDetectVideoExtendedMode (callLog a) /\
  countCall CallDetectTrickMode (callLog (fst (analyzeContents ds a))) =
    countCall CallDetectTrickMode (callLog a) /\
  (mPendingEvents a = [] -> mBlankDevice a = false -> snd (analyzeContents ds a) = ds).
Proof.
  intros Hoff.
  destruct (atDetection_frame ds a) as (Hv & Hf & He & _ & _ & Hl).
  assert (Hrun : analyzeContents ds a =
                 (set_mCachedDisplays [] (atDetection ds a), mCachedDisplays (atDetection ds a))).
  { rewrite analyzeContents_atDetection. cbv zeta. rewrite He, Hoff. reflexivity. }
  assert (Hcount : forall x, x = CallDetectVideoExtendedMode \/ x = CallDetectTrickMode ->
            countCall x (callLog (atDetection ds a)) = countCall x (callLog a)).
  { intros x Hx. rewrite Hl.
    change (CallHandlePendingEvents :: ?l) with ([CallHandlePendingEvents] ++ l).
    rewrite !countCall_app.
    assert (Hev : forall es, countCall x (flat_map eventTrace es) = 0%nat).
    { intros es. induction es as [|e es IH]; [reflexivity|].
      cbn [flat_map]. rewrite countCall_app, IH.
      destruct Hx as [-> | ->]; destruct e; reflexivity. }
    rewrite Hev. destruct Hx as [-> | ->]; destruct (mBlankDevice _); cbn; lia. }
  rewrite Hrun. unfold checkVideoExtendedMode. cbn [fst snd].
  cbn [mVideoExtendedMode mForceCloneMode callLog set_mCachedDisplays].
  rewrite Hv, Hf. repeat split; try (apply Hcount; auto).
  intros Hq Hb. unfold atDetection, handlePendingEvents.
  cbn [mPendingEvents logCall set_mCachedDisplays]. rewrite Hq.
  cbn [mBlankDevice logCall set_mCachedDisplays]. rewrite Hb. reflexivity.
Qed.

End DetectionProperties.

(** * The queue drained: what the handlers do *)

Section QueueClaims.
Context `{HwcDefs} `{Collaborators}.

Lemma postEvents_state (es : list Event) (a : DisplayAnalyzer) :
  mVideoPlaying (fold_left (fun acc e => postEvent e acc) es a) = mVideoPlaying a /\
  mBlankDevice (fold_left (fun acc e => postEvent e acc) es a) = mBlankDevice a /\
  mCachedDisplays (fold_left (fun acc e => postEvent e acc) es a) = mCachedDisplays a.
Proof.
  revert a; induction es as [|e es IH]; intros a; [repeat split|].
  cbn [fold_left]. destruct (IH (postEvent e a)) as (Hp & Hb & Hc).
  rewrite Hp, Hb, Hc. repeat split.
Qed.

Lemma no_blank_event (es : list Event) :
  existsb isBlankEvent es = false ->
  forallb (fun e => negb (isBlankEvent e)) es = true.
Proof.
  induction es as [|e es IH]; [reflexivity|]. cbn.
  intros Hn. apply orb_false_iff in Hn as [He Hes]. rewrite He, (IH Hes). reflexivity.
Qed.

Lemma blankAfter_no_blank (es : list Event) (b : bool) :
  existsb isBlankEvent es = false -> blankAfter es b = b.
Proof.
  unfold blankAfter. revert b; induction es as [|e es IH]; intros b; [reflexivity|].
  cbn. intros Hn. apply orb_false_iff in Hn as [He Hes].
  destruct e; try discriminate He; apply IH; exact Hes.
Qed.

(** A blank event rewrites every secondary display of the cache. *)
Lemma handleBlankEvent_slot (blank : bool) (a : DisplayAnalyzer) (i : nat)
    (c : hwc_display_contents_1_t) :
  i <> DEVICE_PRIMARY ->
  mCachedDisplays a !! i = Some (Some c) ->
  exists c',
    mCachedDisplays (handleBlankEvent blank a) !! i = Some (Some c') /\
    length (hwLayers c') = length (hwLayers c) /\
    Z.land (content_flags c') HWC_GEOMETRY_CHANGED = HWC_GEOMETRY_CHANGED /\
    forall j l', hwLayers c' !! j = Some l' ->
                 (j + 1 < length (hwLayers c'))%nat -> blankedAs blank l'.
Proof.
  intros Hi Hd.
  exists (blankContent blank
            (set_content_flags (Z.lor (content_flags c) HWC_GEOMETRY_CHANGED) c)).
  assert (Hlen : forall b (x : hwc_display_contents_1_t),
            length (hwLayers (blankContent b x)) = length (hwLayers x))
    by (intros; unfold blankContent; cbn; apply length_imap).
  split.
  - unfold handleBlankEvent. cbv zeta. rewrite blankSecondaryDevice_lookup.
    cbn [mCachedDisplays set_mCachedDisplays set_mBlankDevice logCall mBlankDevice].
    rewrite list_lookup_imap, Hd.
    destruct (Nat.eqb_spec i DEVICE_PRIMARY) as [E|_]; [contradiction|].
    cbn. destruct (Nat.eqb_spec i DEVICE_PRIMARY) as [E|_]; [contradiction | reflexivity].
  - split; [rewrite Hlen; reflexivity|]. split; [apply land_lor_same|].
    intros j l' Hl Hj. rewrite Hlen in Hj. rewrite blankContent_lookup in Hl.
    cbn [hwLayers set_content_flags] in Hl, Hj.
    destruct (hwLayers c !! j) as [l0|]; [|discriminate Hl]. cbn in Hl.
    destruct (Z.ltb_spec (Z.of_nat j) (Z.of_nat (length (hwLayers c)) - 1)); [|lia].
    injection Hl as <-. exact (blankLayer_blankedAs blank l0).
Qed.

Lemma dispatchEvent_slot (e : Event) (a : DisplayAnalyzer) (i : nat)
    (c : hwc_display_contents_1_t) :
  i <> DEVICE_PRIMARY ->
  mCachedDisplays a !! i = Some (Some c) ->
  exists c',
    mCachedDisplays (dispatchEvent e a) !! i = Some (Some c') /\
    length (hwLayers c') = length (hwLayers c).
Proof.
  intros Hi Hd. destruct e as [connected|blank|preparing playing].
  - exists c. split; [exact Hd | reflexivity].
  - destruct (handleBlankEvent_slot blank a i c Hi Hd) as (c' & E & Hlen & _).
    exists c'. split; [exact E | exact Hlen].
  - exists c. split; [exact Hd | reflexivity].
Qed.

(** The displays once a list of events has been handled: if a blank event
    is among them, every secondary display has its geometry flag set and
    its layers as the last blank event leaves them. *)
Lemma applyEvents_displays (es : list Event) :
  forall (a : DisplayAnalyzer) (i : nat) (c : hwc_display_contents_1_t),
    i <> DEVICE_PRIMARY ->
    mCachedDisplays a !! i = Some (Some c) ->
    exists c',
      mCachedDisplays (applyEvents es a) !! i = Some (Some c') /\
      length (hwLayers c') = length (hwLayers c) /\
      (existsb isBlankEvent es = true ->
       Z.land (content_flags c') HWC_GEOMETRY_CHANGED = HWC_GEOMETRY_CHANGED /\
       forall j l', hwLayers c' !! j = Some l' ->
                    (j + 1 < length (hwLayers c'))%nat ->
                    blankedAs (blankAfter es (mBlankDevice a)) l').
Proof.
  induction es as [|e es IH]; intros a i c Hi Hd.
  - exists c. split; [exact Hd|]. split; [reflexivity | discriminate].
  - unfold applyEvents, blankAfter in *. cbn [fold_left existsb].
    destruct (dispatchEvent_flags e a) as (_ & _ & Hb & _).
    destruct (existsb isBlankEvent es) eqn:Hes.
    + destruct (dispatchEvent_slot e a i c Hi Hd) as (c1 & E1 & Hlen1).
      destruct (IH (dispatchEvent e a) i c1 Hi E1) as (c' & E' & Hlen' & Hblank).
      exists c'. split; [exact E'|]. split; [congruence|].
      intros _. rewrite <- Hb. apply Hblank. reflexivity.
    + destruct e as [connected|blank|preparing playing].
      * destruct (IH (dispatchEvent (HOTPLUG_EVENT connected) a) i c Hi Hd)
          as (c' & E' & Hlen' & _).
        exists c'. split; [exact E'|]. split; [exact Hlen' | discriminate].
      * destruct (handleBlankEvent_slot blank a i c Hi Hd) as (c1 & E1 & Hlen1 & Hg & Hls).
        exists c1.
        destruct (applyEvents_no_blank es (handleBlankEvent blank a) (no_blank_event es Hes))
          as [Hc _].
        unfold applyEvents in Hc. cbn [dispatchEvent]. rewrite Hc.
        split; [exact E1|]. split; [exact Hlen1|]. intros _. split; [exact Hg|].
        pose proof (blankAfter_no_blank es blank Hes) as Hlast. unfold blankAfter in Hlast.
        rewrite Hlast. exact Hls.
      * destruct (IH (dispatchEvent (VIDEO_EVENT preparing playing) a) i c Hi Hd)
          as (c' & E' & Hlen' & _).
        exists c'. split; [exact E'|]. split; [exact Hlen' | discriminate].
Qed.

(** C5: after any sequence of events is appended with [postEvent], one
    [handlePendingEvents] handles every pending event, those already queued
    and those just posted, exactly once and in the order of posting, and
    leaves the queue empty.  The handlers the call log gains are exactly
    the queue, front to back, and each event is applied: [mVideoPlaying]
    and [mBlankDevice] end at the value of the last video event and the
    last blank event of the queue, the vsync source is reset once for each
    hot-plug event, and, if the queue holds a blank event, every secondary
    display of the cache has its geometry flag set and each of its layers
    but the last as the last blank event leaves it; the primary display,
    and every display when no blank event is queued, is as before. *)
Theorem pending_events_handled_in_fifo_order (es : list Event) (a : DisplayAnalyzer) :
  let posted := fold_left (fun acc e => postEvent e acc) es a in
  let queue := mPendingEvents a ++ es in
  let after := handlePendingEvents posted in
  mPendingEvents posted = queue /\
  mPendingEvents after = [] /\
  handledEvents (callLog after) = handledEvents (callLog a) ++ queue /\
  after =
    set_mPendingEvents [] (applyEvents queue (logCall CallHandlePendingEvents posted)) /\
  mVideoPlaying after = playingAfter queue (mVideoPlaying a) /\
  mBlankDevice after = blankAfter queue (mBlankDevice a) /\
  countCall CallResetVsyncSource (callLog after) =
    (countCall CallResetVsyncSource (callLog a)
     + length (List.filter isHotplugEvent queue))%nat /\
  mCachedDisplays after !! DEVICE_PRIMARY = mCachedDisplays a !! DEVICE_PRIMARY /\
  (existsb isBlankEvent queue = false -> mCachedDisplays after = mCachedDisplays a) /\
  (existsb isBlankEvent queue = true ->
   forall i c,
     i <> DEVICE_PRIMARY ->
     mCachedDisplays a !! i = Some (Some c) ->
     exists c',
       mCachedDisplays after !! i = Some (Some c') /\
       length (hwLayers c') = length (hwLayers c) /\
       Z.land (content_flags c') HWC_GEOMETRY_CHANGED = HWC_GEOMETRY_CHANGED /\
       forall j l', hwLayers c' !! j = Some l' ->
                    (j + 1 < length (hwLayers c'))%nat ->
                    blankedAs (blankAfter queue (mBlankDevice a)) l').
Proof.
  cbv zeta. destruct (postEvents_pending es a) as [Hq Hl].
  destruct (postEvents_state es a) as (Hp & Hb & Hc).
  remember (fold_left (fun acc e => postEvent e acc) es a) as posted eqn:Eposted.
  destruct (handlePendingEvents_frame posted) as (Hq' & _ & _ & _ & Hl').
  pose proof (handlePendingEvents_applyEvents posted) as Hrun. rewrite Hq in Hrun.
  destruct (applyEvents_flags (mPendingEvents a ++ es) (logCall CallHandlePendingEvents posted))
    as (_ & Hp2 & Hb2 & Hprim).
  cbn [mVideoPlaying mBlankDevice mCachedDisplays logCall] in Hp2, Hb2, Hprim.
  split; [exact Hq|]. split; [exact Hq'|]. split.
  { rewrite Hl', Hl, Hq.
    change (CallHandlePendingEvents :: ?l) with ([CallHandlePendingEvents] ++ l).
    rewrite !handledEvents_app, handledEvents_eventTrace. reflexivity. }
  split; [exact Hrun|].
  rewrite Hrun. cbn [mVideoPlaying mBlankDevice mCachedDisplays callLog set_mPendingEvents].
  split; [rewrite Hp2, Hp; reflexivity|]. split; [rewrite Hb2, Hb; reflexivity|]. split.
  { destruct (applyEvents_frame (mPendingEvents a ++ es)
                (logCall CallHandlePendingEvents posted)) as (_ & _ & _ & _ & Hlog).
    rewrite Hlog. cbn [callLog logCall]. rewrite Hl.
    rewrite !countCall_app, countCall_reset_eventTrace. cbn. lia. }
  split; [rewrite Hprim, Hc; reflexivity|]. split.
  - intros Hnone.
    destruct (applyEvents_no_blank (mPendingEvents a ++ es)
                (logCall CallHandlePendingEvents posted) (no_blank_event _ Hnone)) as [Hsame _].
    rewrite Hsame. exact Hc.
  - intros Hsome i c Hi Hd.
    destruct (applyEvents_displays (mPendingEvents a ++ es)
                (logCall CallHandlePendingEvents posted) i c Hi) as (c' & E & Hlen & Hblank).
    { cbn [mCachedDisplays logCall]. rewrite Hc. exact Hd. }
    destruct (Hblank Hsome) as (Hg & Hls).
    cbn [mBlankDevice logCall] in Hls. rewrite Hb in Hls.
    exists c'. repeat split; assumption.
Qed.



End QueueClaims.

(** * Properties of TngDisplayContext *)

Section TngProperties.
Variable MAXIMUM_LAYER_NUMBER : nat.
Local Open Scope nat_scope.

Lemma flipsDone_app (l1 l2 : list (nat * bool)) :
  Tng.flipsDone (l1 ++ l2) = Tng.flipsDone l1 + Tng.flipsDone l2.
Proof. unfold Tng.flipsDone. rewrite List.filter_app, List.length_app. reflexivity. Qed.

Lemma take_insert_next (l : list Tng.IMG_hwc_layer_t) (n : nat) (e : Tng.IMG_hwc_layer_t) :
  n < length l -> take (S n) (<[n := e]> l) = take n l ++ [e].
Proof.
  intros Hn. rewrite (take_S_r _ n e) by (apply list_lookup_insert_eq; exact Hn).
  rewrite take_insert_ge by lia. reflexivity.
Qed.

(** The loop of [commitContents], for a context whose count is within the
    array. *)
Lemma commitLayers_inv (ll : Tng.HwcLayerList) (ls : list hwc_layer_1_t) :
  forall (i : nat) (c : Tng.TngDisplayContext),
    Tng.mCount c <= MAXIMUM_LAYER_NUMBER ->
    length (Tng.mImgLayers c) = MAXIMUM_LAYER_NUMBER ->
    let r := Tng.commitLayers MAXIMUM_LAYER_NUMBER ll i ls c in
    let entries := Tng.flippedLayers ll i ls in
    Tng.mCount (snd r) = min (Tng.mCount c + length entries) MAXIMUM_LAYER_NUMBER /\
    length (Tng.mImgLayers (snd r)) = MAXIMUM_LAYER_NUMBER /\
    take (Tng.mCount (snd r)) (Tng.mImgLayers (snd r)) =
      take (Tng.mCount (snd r)) (take (Tng.mCount c) (Tng.mImgLayers c) ++ entries) /\
    (Tng.mCount c + length entries < MAXIMUM_LAYER_NUMBER -> fst r = true) /\
    (fst r = false -> Tng.mCount (snd r) = MAXIMUM_LAYER_NUMBER) /\
    Tng.mIMGDisplayDevice (snd r) = Tng.mIMGDisplayDevice c /\
    Tng.mInitialized (snd r) = Tng.mInitialized c /\
    Tng.posts (snd r) = Tng.posts c /\
    Tng.flipsDone (Tng.flips (snd r)) + Tng.mCount c =
      Tng.flipsDone (Tng.flips c) + Tng.mCount (snd r).
Proof.
  induction ls as [|l ls IH]; intros i c Hcount Hlen; cbv zeta.
  - cbn [Tng.commitLayers Tng.flippedLayers fst snd length].
    rewrite Nat.add_0_r, Nat.min_l, app_nil_r, take_take, Nat.min_id by exact Hcount.
    repeat split; try reflexivity; try lia; try discriminate.
  - cbn [Tng.commitLayers Tng.flippedLayers].
    destruct (Nat.leb_spec MAXIMUM_LAYER_NUMBER (Tng.mCount c)) as [Hfull|Hroom].
    + cbn [fst snd]. assert (Tng.mCount c = MAXIMUM_LAYER_NUMBER) as Heq by lia.
      rewrite Nat.min_r by lia.
      rewrite Heq, (take_ge (Tng.mImgLayers c)) by lia.
      rewrite take_app_length' by (symmetry; exact Hlen).
      repeat split; try reflexivity; try lia.
    + destruct (handle l =? 0)%Z; [cbn [app]; apply IH; assumption|].
      destruct (ll i) as [plane|]; [|cbn [app]; apply IH; assumption].
      cbv zeta. cbn [Tng.mIMGDisplayDevice Tng.mInitialized Tng.mCount Tng.mImgLayers
                     Tng.flips Tng.posts].
      destruct (Tng.flip plane) eqn:Hflip; cbn [negb app].
      * match goal with
        | |- context [Tng.commitLayers _ _ _ _ ?c2] =>
            destruct (IH (S i) c2) as (H1 & H2 & H3 & H4 & H5 & H6 & H7 & H8 & H9)
        end.
        { cbn. lia. }
        { cbn. rewrite length_insert. exact Hlen. }
        cbn [Tng.mIMGDisplayDevice Tng.mInitialized Tng.mCount Tng.mImgLayers
             Tng.flips Tng.posts] in H1, H2, H3, H4, H5, H6, H7, H8, H9.
        rewrite take_insert_next in H3 by lia.
        rewrite <- app_assoc in H3. cbn [app] in H3.
        rewrite flipsDone_app in H9. cbn in H9.
        cbn [length]. rewrite Nat.add_succ_r.
        repeat split; try assumption; lia.
      * match goal with
        | |- context [Tng.commitLayers _ _ _ _ ?c1] =>
            destruct (IH (S i) c1) as (H1 & H2 & H3 & H4 & H5 & H6 & H7 & H8 & H9)
        end; [exact Hcount | exact Hlen |].
        cbn [Tng.mIMGDisplayDevice Tng.mInitialized Tng.mCount Tng.mImgLayers
             Tng.flips Tng.posts] in H1, H2, H3, H4, H5, H6, H7, H8, H9.
        rewrite flipsDone_app in H9. cbn in H9.
        repeat split; try assumption; lia.
Qed.

(** X12: [commitContents] never writes past [mImgLayers].  From a context
    whose count is within the array, whatever the display and the layer
    list, the count stays within the array and does not decrease, the
    entries recorded before the call stay as they are, and the device, the
    initialized flag and the posts are untouched. *)
Theorem tng_commit_stays_within_array
    (display : option hwc_display_contents_1_t) (layerList : option Tng.HwcLayerList)
    (c : Tng.TngDisplayContext) :
  Tng.mCount c <= MAXIMUM_LAYER_NUMBER ->
  length (Tng.mImgLayers c) = MAXIMUM_LAYER_NUMBER ->
  let c' := snd (Tng.commitContents MAXIMUM_LAYER_NUMBER display layerList c) in
  Tng.mCount c <= Tng.mCount c' <= MAXIMUM_LAYER_NUMBER /\
  length (Tng.mImgLayers c') = MAXIMUM_LAYER_NUMBER /\
  take (Tng.mCount c) (Tng.mImgLayers c') = take (Tng.mCount c) (Tng.mImgLayers c) /\
  Tng.mIMGDisplayDevice c' = Tng.mIMGDisplayDevice c /\
  Tng.mInitialized c' = Tng.mInitialized c /\
  Tng.posts c' = Tng.posts c.
Proof.
  intros Hcount Hlen. cbv zeta. unfold Tng.commitContents.
  destruct (Tng.mInitialized c) eqn:Hinit; cbn [negb];
    [|cbn; rewrite Hinit; repeat split; try reflexivity; lia].
  destruct display as [d|], layerList as [ll|];
    try (cbn; rewrite Hinit; repeat split; try reflexivity; lia).
  destruct (commitLayers_inv ll (hwLayers d) 0 c Hcount Hlen)
    as (H1 & H2 & H3 & _ & _ & H6 & H7 & H8 & _).
  cbv zeta in H1, H2, H3, H6, H7, H8.
  set (c' := snd (Tng.commitLayers MAXIMUM_LAYER_NUMBER ll 0 (hwLayers d) c)) in *.
  assert (Hmono : Tng.mCount c <= Tng.mCount c') by lia.
  repeat split; try assumption; try lia; try congruence.
  apply (f_equal (take (Tng.mCount c))) in H3.
  rewrite !take_take, !Nat.min_l in H3 by lia.
  rewrite H3, take_app_le by (rewrite length_take; lia).
  rewrite take_take, Nat.min_id. reflexivity.
Qed.

(** X13: what [commitContents] records.  On an initialized context with
    room left for them, the call succeeds and appends to the entries in
    use one entry for each layer, in layer order, that has a buffer and
    whose plane exists and flips; layers without buffer, without plane or
    whose flip fails are skipped without an entry. *)
Theorem tng_commit_records_flipped_layers
    (d : hwc_display_contents_1_t) (ll : Tng.HwcLayerList) (c : Tng.TngDisplayContext) :
  Tng.mInitialized c = true ->
  length (Tng.mImgLayers c) = MAXIMUM_LAYER_NUMBER ->
  Tng.mCount c + length (Tng.flippedLayers ll 0 (hwLayers d)) < MAXIMUM_LAYER_NUMBER ->
  let r := Tng.commitContents MAXIMUM_LAYER_NUMBER (Some d) (Some ll) c in
  fst r = true /\
  Tng.mCount (snd r) = Tng.mCount c + length (Tng.flippedLayers ll 0 (hwLayers d)) /\
  take (Tng.mCount (snd r)) (Tng.mImgLayers (snd r)) =
    take (Tng.mCount c) (Tng.mImgLayers c) ++ Tng.flippedLayers ll 0 (hwLayers d).
Proof.
  intros Hinit Hlen Hfit. cbv zeta. unfold Tng.commitContents. rewrite Hinit. cbn [negb].
  destruct (commitLayers_inv ll (hwLayers d) 0 c) as (H1 & _ & H3 & H4 & _); [lia | exact Hlen |].
  cbv zeta in H1, H3, H4.
  rewrite Nat.min_l in H1 by lia.
  split; [apply H4; exact Hfit|]. split; [exact H1|].
  rewrite H3, H1. apply take_ge. rewrite length_app, length_take. lia.
Qed.

(** X14: [commitContents] fails on valid arguments only with the array
    full.  On an initialized context within the array, given a display and
    a layer list, a false result means that [mCount] has reached
    [MAXIMUM_LAYER_NUMBER]; the entries recorded up to there are kept, and
    they are the first flipped layers of the display. *)
Theorem tng_commit_fails_only_when_full
    (d : hwc_display_contents_1_t) (ll : Tng.HwcLayerList) (c : Tng.TngDisplayContext) :
  Tng.mInitialized c = true ->
  Tng.mCount c <= MAXIMUM_LAYER_NUMBER ->
  length (Tng.mImgLayers c) = MAXIMUM_LAYER_NUMBER ->
  let r := Tng.commitContents MAXIMUM_LAYER_NUMBER (Some d) (Some ll) c in
  fst r = false ->
  Tng.mCount (snd r) = MAXIMUM_LAYER_NUMBER /\
  MAXIMUM_LAYER_NUMBER <= Tng.mCount c + length (Tng.flippedLayers ll 0 (hwLayers d)) /\
  Tng.mImgLayers (snd r) =
    take MAXIMUM_LAYER_NUMBER
      (take (Tng.mCount c) (Tng.mImgLayers c) ++ Tng.flippedLayers ll 0 (hwLayers d)).
Proof.
  intros Hinit Hcount Hlen. cbv zeta. unfold Tng.commitContents. rewrite Hinit. cbn [negb].
  destruct (commitLayers_inv ll (hwLayers d) 0 c Hcount Hlen)
    as (H1 & H2 & H3 & H4 & H5 & _).
  cbv zeta in H1, H2, H3, H4, H5. intros Hfail.
  specialize (H5 Hfail). split; [exact H5|]. split.
  - destruct (Nat.lt_ge_cases
                (Tng.mCount c + length (Tng.flippedLayers ll 0 (hwLayers d)))
                MAXIMUM_LAYER_NUMBER) as [Hlt|Hge]; [|exact Hge].
    rewrite (H4 Hlt) in Hfail. discriminate Hfail.
  - rewrite H5 in H3. rewrite <- H3. symmetry. apply take_ge. lia.
Qed.

(** X15: every flip that succeeds is recorded.  Whatever the outcome of
    [commitContents], the number of planes it flipped with success is the
    number of entries it added: no plane is flipped once the array is
    full. *)
Theorem tng_every_successful_flip_is_recorded
    (display : option hwc_display_contents_1_t) (layerList : option Tng.HwcLayerList)
    (c : Tng.TngDisplayContext) :
  Tng.mCount c <= MAXIMUM_LAYER_NUMBER ->
  length (Tng.mImgLayers c) = MAXIMUM_LAYER_NUMBER ->
  let c' := snd (Tng.commitContents MAXIMUM_LAYER_NUMBER display layerList c) in
  Tng.flipsDone (Tng.flips c') + Tng.mCount c = Tng.flipsDone (Tng.flips c) + Tng.mCount c'.
Proof.
  intros Hcount Hlen. cbv zeta. unfold Tng.commitContents.
  destruct (Tng.mInitialized c); cbn [negb]; [|cbn; lia].
  destruct display as [d|], layerList as [ll|]; try (cbn; lia).
  destruct (commitLayers_inv ll (hwLayers d) 0 c Hcount Hlen) as (_ & _ & _ & _ & _ & _ & _ & _ & H9).
  exact H9.
Qed.

End TngProperties.

Section TngFrames.
Variable MAXIMUM_LAYER_NUMBER : nat.
Local Open Scope nat_scope.

Lemma commitAll_inv (frames : list (hwc_display_contents_1_t * Tng.HwcLayerList)) :
  forall c : Tng.TngDisplayContext,
    Tng.mInitialized c = true ->
    length (Tng.mImgLayers c) = MAXIMUM_LAYER_NUMBER ->
    Tng.mCount c + length (Tng.frameLayers frames) < MAXIMUM_LAYER_NUMBER ->
    let r := Tng.commitAll MAXIMUM_LAYER_NUMBER frames c in
    fst r = true /\
    Tng.mCount (snd r) = Tng.mCount c + length (Tng.frameLayers frames) /\
    take (Tng.mCount (snd r)) (Tng.mImgLayers (snd r)) =
      take (Tng.mCount c) (Tng.mImgLayers c) ++ Tng.frameLayers frames /\
    Tng.mIMGDisplayDevice (snd r) = Tng.mIMGDisplayDevice c /\
    Tng.posts (snd r) = Tng.posts c.
Proof.
  induction frames as [|[d ll] frames IH]; intros c Hinit Hlen Hfit; cbv zeta.
  - cbn. rewrite Nat.add_0_r, app_nil_r. repeat split.
  - cbn [Tng.commitAll]. unfold Tng.commitContents. rewrite Hinit. cbn [negb].
    unfold Tng.frameLayers in *. cbn [flat_map fst snd] in *.
    rewrite length_app in Hfit.
    destruct (commitLayers_inv MAXIMUM_LAYER_NUMBER ll (hwLayers d) 0 c)
      as (H1 & H2 & H3 & H4 & _ & H6 & H7 & H8 & _); [lia | exact Hlen |].
    cbv zeta in H1, H2, H3, H4, H6, H7, H8.
    rewrite Nat.min_l in H1 by lia.
    destruct (Tng.commitLayers MAXIMUM_LAYER_NUMBER ll 0 (hwLayers d) c) as [ok c'].
    cbn [fst snd] in *. rewrite H4 by lia.
    destruct (IH c') as (I1 & I2 & I3 & I4 & I5); [congruence | exact H2 | lia |].
    cbv zeta in I1, I2, I3, I4, I5.
    split; [exact I1|]. split; [rewrite I2, H1, length_app; lia|].
    split; [|split; congruence].
    rewrite I3, H3, H1, app_assoc. f_equal.
    apply take_ge. rewrite length_app, length_take. lia.
Qed.

(** X16: a frame is posted as one array of the flipped layers.  On an
    initialized context with a display device, take a frame whose displays
    have, together, strictly fewer than [MAXIMUM_LAYER_NUMBER] flipped
    layers (with exactly that many a commit can fail: the capacity test
    comes before each layer).  Then [commitBegin] and [commitContents] for
    each display succeed, and [commitEnd] does as follows: if at least one
    layer was flipped, the device is handed, in one single post, the
    flipped layers of all the displays in commit order, whatever earlier
    frames left in the array, and [commitEnd] returns whether that post
    returned 0; if none was flipped, nothing is posted and [commitEnd]
    returns true. *)
Theorem tng_frame_is_posted_once
    (frames : list (hwc_display_contents_1_t * Tng.HwcLayerList))
    (device : Tng.IMG_display_device_public_t) (c : Tng.TngDisplayContext) :
  Tng.mInitialized c = true ->
  Tng.mIMGDisplayDevice c = Some device ->
  length (Tng.mImgLayers c) = MAXIMUM_LAYER_NUMBER ->
  length (Tng.frameLayers frames) < MAXIMUM_LAYER_NUMBER ->
  let r1 := Tng.commitBegin c in
  let r2 := Tng.commitAll MAXIMUM_LAYER_NUMBER frames (snd r1) in
  let r3 := Tng.commitEnd (snd r2) in
  fst r1 = true /\ fst r2 = true /\
  (Tng.frameLayers frames = [] ->
   fst r3 = true /\ Tng.posts (snd r3) = Tng.posts c) /\
  (Tng.frameLayers frames <> [] ->
   fst r3 = (Tng.post device (Tng.frameLayers frames) =? 0)%Z /\
   Tng.posts (snd r3) = Tng.posts c ++ [Tng.frameLayers frames]).
Proof.
  intros Hinit Hdev Hlen Hfit. cbv zeta. unfold Tng.commitBegin. rewrite Hinit. cbn [negb fst snd].
  match goal with
  | |- context [Tng.commitAll _ _ ?c1] =>
      destruct (commitAll_inv frames c1) as (H1 & H2 & H3 & H4 & H5);
        [reflexivity | exact Hlen | cbn; lia |]
  end.
  cbv zeta in H1, H2, H3, H4, H5.
  cbn [Tng.mCount Tng.mImgLayers Tng.mIMGDisplayDevice Tng.posts] in H2, H3, H4, H5.
  rewrite take_0 in H3. cbn [app Nat.add] in H2, H3.
  match goal with
  | |- context [Tng.commitAll _ _ ?c1] =>
      destruct (Tng.commitAll MAXIMUM_LAYER_NUMBER frames c1) as [ok c2]
  end.
  cbn [fst snd] in *. split; [reflexivity|]. split; [exact H1|].
  unfold Tng.commitEnd. cbv zeta. rewrite H3, H2, H4, Hdev. split.
  - intros Hnone. rewrite Hnone. cbn. split; [reflexivity | exact H5].
  - intros Hsome.
    destruct (Nat.eqb_spec (length (Tng.frameLayers frames)) 0) as [E|_].
    + destruct (Tng.frameLayers frames); [contradiction | discriminate E].
    + destruct (Tng.post device (Tng.frameLayers frames) =? 0)%Z; cbn; rewrite H5;
        split; reflexivity.
Qed.

(** X17: an [initialize] that finds the gralloc module but no display
    device clears the device and leaves [mInitialized] as it was.  Called
    on an initialized context it returns false, and a frame committed
    afterwards whose displays have, together, strictly fewer than
    [MAXIMUM_LAYER_NUMBER] flipped layers succeeds at every step,
    [commitEnd] included, while nothing is posted. *)
Theorem tng_initialize_without_device_drops_frames
    (frames : list (hwc_display_contents_1_t * Tng.HwcLayerList))
    (c : Tng.TngDisplayContext) :
  Tng.mInitialized c = true ->
  length (Tng.mImgLayers c) = MAXIMUM_LAYER_NUMBER ->
  length (Tng.frameLayers frames) < MAXIMUM_LAYER_NUMBER ->
  let r0 := Tng.initialize 0 None c in
  let r1 := Tng.commitBegin (snd r0) in
  let r2 := Tng.commitAll MAXIMUM_LAYER_NUMBER frames (snd r1) in
  let r3 := Tng.commitEnd (snd r2) in
  fst r0 = false /\ Tng.mInitialized (snd r0) = true /\
  fst r1 = true /\ fst r2 = true /\ fst r3 = true /\
  Tng.posts (snd r3) = Tng.posts c.
Proof.
  intros Hinit Hlen Hfit. cbv zeta. cbn [Tng.initialize Z.eqb negb fst snd].
  unfold Tng.commitBegin. cbn [Tng.mInitialized]. rewrite Hinit. cbn [negb fst snd].
  cbn [Tng.mIMGDisplayDevice Tng.mImgLayers Tng.flips Tng.posts Tng.mCount].
  match goal with
  | |- context [Tng.commitAll _ _ ?c1] => remember c1 as cc eqn:Ecc
  end.
  destruct (commitAll_inv frames cc) as (H1 & _ & _ & H4 & H5);
    [subst cc; reflexivity | subst cc; exact Hlen | subst cc; cbn; lia |].
  cbv zeta in H1, H4, H5.
  destruct (Tng.commitAll MAXIMUM_LAYER_NUMBER frames cc) as [ok c2].
  cbn [fst snd] in *. unfold Tng.commitEnd. rewrite H4, H5. subst cc.
  cbn [Tng.mIMGDisplayDevice Tng.posts].
  destruct (Tng.mCount c2 =? 0); cbn [fst snd]; rewrite ?H5; repeat split; assumption.
Qed.

End TngFrames.

(** ** The further properties on the concrete platform *)

Lemma primary_display_untouched_without_extended_mode_witness :
  let ds := [Some (Sample.primaryTrick 1); Some (Sample.secondaryVideo 1 1920 1080)] in
  let r := @analyzeContents Sample.defs (Sample.collab Sample.hd1080) ds
             (postBlankEvent true Sample.started) in
  mVideoExtendedMode (fst r) = false /\
  snd r !! DEVICE_PRIMARY = Some (Some (Sample.primaryTrick 1)).
Proof.
  cbv zeta. split; [evaluate|].
  apply (@primary_display_untouched_without_extended_mode Sample.defs
           (Sample.collab Sample.hd1080)
           [Some (Sample.primaryTrick 1); Some (Sample.secondaryVideo 1 1920 1080)]
           (postBlankEvent true Sample.started)).
  right. evaluate.
Defined.

Lemma secondary_layers_blanked_after_frame_witness :
  let r := @analyzeContents Sample.defs (Sample.collab Sample.hd1080)
             (Sample.twoDisplays 1 1920 1080) (postBlankEvent true Sample.started) in
  mBlankDevice (fst r) = true /\
  exists content layer,
    snd r !! 1%nat = Some (Some content) /\
    hwLayers content !! 0%nat = Some layer /\
    blankedAs true layer.
Proof.
  cbv zeta. split; [evaluate|].
  eexists. eexists. split; [vm_compute; reflexivity|]. split; [reflexivity|].
  eapply (@secondary_layers_blanked_after_frame Sample.defs (Sample.collab Sample.hd1080)
            (Sample.twoDisplays 1 1920 1080) (postBlankEvent true Sample.started)
            1%nat 0%nat);
    [evaluate | evaluate | vm_compute; reflexivity | reflexivity | cbn; lia].
Defined.

Lemma disconnect_is_never_queued_witness :
  let rs := [ReqPostHotplugEvent true; ReqPostHotplugEvent false;
             ReqPostVideoEvent true true; ReqPostHotplugEvent false] in
  Forall (fun e => e <> HOTPLUG_EVENT false) (mPendingEvents newDisplayAnalyzer) /\
  Forall (fun e => e <> HOTPLUG_EVENT false)
    (mPendingEvents (@serveAll Sample.defs (Sample.collab Sample.hd1080) rs
                       newDisplayAnalyzer)).
Proof.
  cbv zeta. split; [constructor|].
  apply (@disconnect_is_never_queued Sample.defs (Sample.collab Sample.hd1080)).
  constructor.
Defined.

Lemma overlay_is_always_allowed_witness :
  let rs := [ReqInitialize (mkProp 1 1); ReqPostVideoEvent true false;
             ReqAnalyzeContents (Sample.twoDisplays 1 1920 1080);
             ReqPostVideoEvent true true;
             ReqAnalyzeContents (Sample.twoDisplays 1 1920 1080)] in
  mOverlayAllowed newDisplayAnalyzer = true /\
  mVideoPreparing newDisplayAnalyzer = false /\
  isOverlayAllowed (@serveAll Sample.defs (Sample.collab Sample.hd1080) rs
                      newDisplayAnalyzer) = true.
Proof.
  cbv zeta. split; [reflexivity|]. split; [reflexivity|].
  apply (@overlay_is_always_allowed Sample.defs (Sample.collab Sample.hd1080));
    reflexivity.
Defined.

Lemma extended_mode_needs_video_on_secondary_display_witness :
  let a := set_mCachedDisplays (Sample.twoDisplays 1 1920 1080) Sample.playing in
  mVideoExtendedMode a = false /\
  mVideoExtendedMode (@detectVideoExtendedMode Sample.defs (Sample.collab Sample.hd1080) a)
    = true /\
  mVideoPlaying a = true /\
  2 <= countActive (mCachedDisplays a) /\
  anyGeometryChanged (mCachedDisplays a) = true.
Proof.
  cbv zeta. split; [evaluate|]. split; [evaluate|].
  destruct (@extended_mode_needs_video_on_secondary_display Sample.defs
              (Sample.collab Sample.hd1080)
              (set_mCachedDisplays (Sample.twoDisplays 1 1920 1080) Sample.playing))
    as (Hp & Hc & Hg & _); [evaluate | evaluate |].
  split; [exact Hp|]. split; [exact Hc | exact Hg].
Defined.

Lemma disabled_support_freezes_modes_witness :
  let r := @analyzeContents Sample.defs (Sample.collab Sample.hd1080)
             [Some (Sample.primaryVideo 1)] Sample.switchedOff in
  mEnableVideoExtendedMode Sample.switchedOff = false /\
  mVideoExtendedMode (fst r) = mVideoExtendedMode Sample.switchedOff /\
  mForceCloneMode (fst r) = mForceCloneMode Sample.switchedOff /\
  snd r = [Some (Sample.primaryVideo 1)].
Proof.
  cbv zeta. split; [evaluate|].
  destruct (@disabled_support_freezes_modes Sample.defs (Sample.collab Sample.hd1080)
              [Some (Sample.primaryVideo 1)] Sample.switchedOff)
    as (Hv & Hf & _ & _ & _ & _ & Hds); [evaluate|].
  split; [exact Hv|]. split; [exact Hf|]. apply Hds; evaluate.
Defined.

Lemma tng_commit_stays_within_array_witness :
  let c' := snd (Tng.commitContents 4 (Some Tng.sampleDisplay) (Some Tng.samplePlanes)
                   Tng.sampleContext) in
  (Tng.mCount Tng.sampleContext <= 4)%nat /\
  length (Tng.mImgLayers Tng.sampleContext) = 4%nat /\
  (Tng.mCount Tng.sampleContext <= Tng.mCount c' <= 4)%nat /\
  length (Tng.mImgLayers c') = 4%nat.
Proof.
  cbv zeta. split; [cbn; lia|]. split; [reflexivity|].
  destruct (tng_commit_stays_within_array 4 (Some Tng.sampleDisplay)
              (Some Tng.samplePlanes) Tng.sampleContext)
    as (Hcount & Hlen & _); [cbn; lia | reflexivity |].
  split; [exact Hcount | exact Hlen].
Defined.

Lemma tng_commit_records_flipped_layers_witness :
  let r := Tng.commitContents 4 (Some Tng.sampleDisplay) (Some Tng.samplePlanes)
             Tng.sampleContext in
  Tng.mInitialized Tng.sampleContext = true /\
  length (Tng.flippedLayers Tng.samplePlanes 0 (hwLayers Tng.sampleDisplay)) = 2%nat /\
  fst r = true /\
  Tng.mCount (snd r) = 2%nat /\
  take (Tng.mCount (snd r)) (Tng.mImgLayers (snd r)) =
    [Tng.mkImgLayer (Sample.layer 4096 0 1920 1080) 7; Tng.mkImgLayer Sample.fbTarget 9].
Proof.
  cbv zeta. split; [reflexivity|]. split; [reflexivity|].
  destruct (tng_commit_records_flipped_layers 4 Tng.sampleDisplay Tng.samplePlanes
              Tng.sampleContext)
    as (Hok & Hcount & Hentries); [reflexivity | reflexivity | cbn; lia |].
  split; [exact Hok|]. split; [rewrite Hcount; reflexivity|].
  rewrite Hentries. reflexivity.
Defined.

Lemma tng_commit_fails_only_when_full_witness :
  let c := snd (Tng.initialize 0 (Some Tng.sampleDevice)
                  (Tng.newContext [Tng.mkImgLayer Sample.fbTarget 0])) in
  let r := Tng.commitContents 1 (Some Tng.sampleDisplay) (Some Tng.samplePlanes) c in
  Tng.mInitialized c = true /\
  fst r = false /\
  Tng.mCount (snd r) = 1%nat /\
  Tng.mImgLayers (snd r) = [Tng.mkImgLayer (Sample.layer 4096 0 1920 1080) 7].
Proof.
  cbv zeta. split; [reflexivity|]. split; [reflexivity|].
  destruct (tng_commit_fails_only_when_full 1 Tng.sampleDisplay Tng.samplePlanes
              (snd (Tng.initialize 0 (Some Tng.sampleDevice)
                      (Tng.newContext [Tng.mkImgLayer Sample.fbTarget 0]))))
    as (Hfull & _ & Hentries); [reflexivity | cbn; lia | reflexivity | reflexivity |].
  split; [exact Hfull|]. rewrite Hentries. reflexivity.
Defined.

Lemma tng_every_successful_flip_is_recorded_witness :
  let c' := snd (Tng.commitContents 4 (Some Tng.sampleDisplay) (Some Tng.samplePlanes)
                   Tng.sampleContext) in
  Tng.flips c' = [(0%nat, true); (1%nat, false); (2%nat, true)] /\
  (Tng.flipsDone (Tng.flips c') + Tng.mCount Tng.sampleContext =
   Tng.flipsDone (Tng.flips Tng.sampleContext) + Tng.mCount c')%nat.
Proof.
  cbv zeta. split; [reflexivity|].
  apply (tng_every_successful_flip_is_recorded 4 (Some Tng.sampleDisplay)
           (Some Tng.samplePlanes) Tng.sampleContext); [cbn; lia | reflexivity].
Defined.

Lemma tng_frame_is_posted_once_witness :
  let frames := [(Tng.sampleDisplay, Tng.samplePlanes)] in
  let r3 := Tng.commitEnd
              (snd (Tng.commitAll 4 frames (snd (Tng.commitBegin Tng.sampleContext)))) in
  Tng.frameLayers frames <> [] /\
  fst r3 = true /\
  Tng.posts (snd r3) =
    [[Tng.mkImgLayer (Sample.layer 4096 0 1920 1080) 7; Tng.mkImgLayer Sample.fbTarget 9]].
Proof.
  cbv zeta. split; [discriminate|].
  destruct (tng_frame_is_posted_once 4 [(Tng.sampleDisplay, Tng.samplePlanes)]
              Tng.sampleDevice Tng.sampleContext)
    as (_ & _ & _ & Hpost); [reflexivity | reflexivity | reflexivity | cbn; lia |].
  destruct Hpost as (Hok & Hposts); [discriminate|].
  split; [rewrite Hok; reflexivity | rewrite Hposts; reflexivity].
Defined.

Lemma tng_initialize_without_device_drops_frames_witness :
  let frames := [(Tng.sampleDisplay, Tng.samplePlanes)] in
  let r0 := Tng.initialize 0 None Tng.sampleContext in
  let r3 := Tng.commitEnd
              (snd (Tng.commitAll 4 frames (snd (Tng.commitBegin (snd r0))))) in
  Tng.mInitialized Tng.sampleContext = true /\
  fst r0 = false /\ fst r3 = true /\ Tng.posts (snd r3) = [].
Proof.
  cbv zeta. split; [reflexivity|].
  destruct (tng_initialize_without_device_drops_frames 4
              [(Tng.sampleDisplay, Tng.samplePlanes)] Tng.sampleContext)
    as (H0 & _ & _ & _ & H3 & Hposts); [reflexivity | reflexivity | cbn; lia |].
  split; [exact H0|]. split; [exact H3 | exact Hposts].
Defined.


Lemma pending_events_handled_in_fifo_order_witness :
  let a := set_mCachedDisplays (Sample.twoDisplays 0 1920 1080) Sample.playing in
  let es := [VIDEO_EVENT false false; BLANK_EVENT false; HOTPLUG_EVENT true;
             BLANK_EVENT true; VIDEO_EVENT true true] in
  let after := handlePendingEvents (fold_left (fun acc e => postEvent e acc) es a) in
  existsb isBlankEvent (mPendingEvents a ++ es) = true /\
  mPendingEvents after = [] /\
  handledEvents (callLog after) = es /\
  mVideoPlaying after = true /\
  mBlankDevice after = true /\
  countCall CallResetVsyncSource (callLog after) = 1%nat /\
  exists c',
    mCachedDisplays after !! 1%nat = Some (Some c') /\
    Z.land (content_flags c') HWC_GEOMETRY_CHANGED = HWC_GEOMETRY_CHANGED /\
    forall j l', hwLayers c' !! j = Some l' ->
                 (j + 1 < length (hwLayers c'))%nat -> blankedAs true l'.
Proof.
  cbv zeta.
  destruct (@pending_events_handled_in_fifo_order Sample.defs
              [VIDEO_EVENT false false; BLANK_EVENT false; HOTPLUG_EVENT true;
               BLANK_EVENT true; VIDEO_EVENT true true]
              (set_mCachedDisplays (Sample.twoDisplays 0 1920 1080) Sample.playing))
    as (_ & Hq & Hh & _ & Hp & Hb & Hr & _ & _ & Hblank).
  split; [reflexivity|]. split; [exact Hq|]. split; [rewrite Hh; reflexivity|].
  split; [rewrite Hp; reflexivity|]. split; [rewrite Hb; reflexivity|].
  split; [rewrite Hr; reflexivity|].
  destruct (Hblank eq_refl 1%nat (Sample.secondaryVideo 0 1920 1080))
    as (c' & E & _ & Hg & Hls); [evaluate | reflexivity |].
  exists c'. split; [exact E|]. split; [exact Hg | exact Hls].
Defined.
